(** * Nook metadata service: the example Python client and the registry design

    The first half of this development embeds
    [nook/examples/api-usage/python-client.py]: the class [NookClient], a thin
    wrapper which turns method calls into HTTP requests issued through a
    [requests.Session].  The second half models the registries of the metadata
    service itself, whose implementation is not part of the sources and which
    is therefore taken from the written design. *)

From Stdlib Require Import Ascii String ZArith ZifyBool.
From stdpp Require Import gmap strings list pretty.

Local Set Warnings "-register-all".

Local Open Scope string_scope.
Local Open Scope list_scope.
Local Open Scope Z_scope.

(** ** JSON values

    What [json.loads] produces and what [json=] accepts: Python's [None],
    [bool], [int], [str], [list] and [dict] with string keys. *)
Inductive Json : Type :=
  | JNull
  | JBool (b : bool)
  | JInt (z : Z)
  | JStr (s : string)
  | JList (l : list Json)
  | JDict (d : gmap string Json).

(** ** Python built-ins used by the client *)
Module Py.

(** Truth value of an argument annotated [str = None]: [None] and the empty
    string are false, every other string is true. *)
Definition truthy_str (o : option string) : bool :=
  match o with
  | None => false
  | Some s => negb (String.eqb s "")
  end.

(** Truth value of an argument annotated [int = None]: [None] and [0] are
    false, every other integer is true. *)
Definition truthy_int (o : option Z) : bool :=
  match o with
  | None => false
  | Some z => negb (z =? 0)
  end.

(** [c in chars]. *)
Fixpoint char_in (c : ascii) (chars : string) : bool :=
  match chars with
  | EmptyString => false
  | String d chars' => Ascii.eqb c d || char_in c chars'
  end.

(** [s.rstrip(chars)]: drop the longest suffix of [s] made only of
    characters of [chars]. *)
Fixpoint rstrip (chars s : string) : string :=
  match s with
  | EmptyString => EmptyString
  | String a s' =>
      match rstrip chars s' with
      | EmptyString =>
          if char_in a chars then EmptyString else String a EmptyString
      | r => String a r
      end
  end.

(** [c * n] for a one-character string [c]. *)
Fixpoint repeat_char (c : ascii) (n : nat) : string :=
  match n with
  | O => EmptyString
  | S n' => String c (repeat_char c n')
  end.

(** [str(z)] for an [int], which is what an f-string field [{z}] expands
    to: decimal digits, with a leading minus sign below zero. *)
Definition str_int (z : Z) : string := pretty z.

End Py.

(** ** The part of the [requests] library the client relies on *)
Module requests.

Inductive verb : Set := GET | POST | DELETE.

(** A request as handed to the library by [Session.get], [Session.post] and
    [Session.delete]: the verb, the URL, the session's headers and the
    value of the [json=] keyword (absent for [get] and [delete]). *)
Record Request : Type := {
  req_method : verb;
  req_url : string;
  req_headers : gmap string string;
  req_json : option (gmap string Json)
}.

Record Response : Type := {
  status_code : Z;
  text : string
}.

Record Session : Type := {
  headers : gmap string string
}.

(** Exceptions that can leave a client method. *)
Inductive exn : Type :=
  | ConnectionError
  | HTTPError (response : Response)
  | JSONDecodeError.

Inductive outcome (A : Type) : Type :=
  | Return (a : A)
  | Raise (e : exn).
Arguments Return {A} a.
Arguments Raise {A} e.

(** The test made by [Response.raise_for_status]: the library raises
    [HTTPError] for client errors (400 to 499) and server errors (500 to
    599), and for no other status code. *)
Definition is_error_status (s : Z) : bool :=
  ((400 <=? s) && (s <? 500)) || ((500 <=? s) && (s <? 600)).

(** A 2xx status code. *)
Definition is_2xx (s : Z) : bool := (200 <=? s) && (s <? 300).

End requests.
Export requests.

(** ** The client: [class NookClient] *)
Module client.

(** The object built by [NookClient.__init__]: its two attributes. *)
Record NookClient : Type := {
  base_url : string;
  session : Session
}.

(** The value a method hands back: decoded JSON, or [None]. *)
Inductive value : Type :=
  | VJson (j : Json)
  | VNone.

(** An optional [str] or [int] argument as the value stored in a [dict]. *)
Definition of_opt_str (o : option string) : Json := from_option JStr JNull o.
Definition of_opt_int (o : option Z) : Json := from_option JInt JNull o.

Section WithEnvironment.

(** What lies outside the file: the headers a new [requests.Session]
    starts with, the JSON decoder behind [Response.json] ([None] when the
    body is not JSON), and the remote end, which answers a request with a
    response or not at all (the connection fails). *)
Variable default_headers : gmap string string.
Variable json_loads : string -> option Json.
Variable Remote : Type.
Variable serve : Remote -> Request -> Remote * option Response.

(** The state a method runs in: the client object it receives as [self]
    (which a method body would be free to assign to), the remote end, and
    the requests put on the wire so far, oldest first. *)
Record State : Type := {
  self : NookClient;
  remote : Remote;
  wire : list Request
}.

(** State and exceptions. *)
Definition M (A : Type) : Type := State -> outcome A * State.

#[local] Instance M_ret : MRet M := λ A a st, (Return a, st).
#[local] Instance M_bind : MBind M := λ A B f m st,
  match m st with
  | (Return a, st') => f a st'
  | (Raise e, st') => (Raise e, st')
  end.

Definition raise {A : Type} (e : exn) : M A := λ st, (Raise e, st).
Definition get_self : M NookClient := λ st, (Return (self st), st).

(** [Session.request]: the request carries the session's headers; it is
    put on the wire and the remote end answers or fails. *)
Definition session_request (s : Session) (v : verb) (u : string)
    (body : option (gmap string Json)) : M Response := λ st,
  let req := {| req_method := v; req_url := u;
                req_headers := headers s; req_json := body |} in
  let (remote', answer) := serve (remote st) req in
  (match answer with
   | Some response => Return response
   | None => Raise ConnectionError
   end,
   {| self := self st; remote := remote'; wire := wire st ++ [req] |}).

Definition session_get (s : Session) (u : string) : M Response :=
  session_request s GET u None.
Definition session_post (s : Session) (u : string) (json : gmap string Json)
    : M Response :=
  session_request s POST u (Some json).
Definition session_delete (s : Session) (u : string) : M Response :=
  session_request s DELETE u None.

(** [response.raise_for_status()]. *)
Definition raise_for_status (response : Response) : M unit :=
  if is_error_status (status_code response)
  then raise (HTTPError response)
  else mret tt.

(** [response.json()]. *)
Definition response_json (response : Response) : M Json :=
  match json_loads (text response) with
  | Some j => mret j
  | None => raise JSONDecodeError
  end.

(** [NookClient.__init__(base_url)]. *)
Definition __init__ (base_url : string) : NookClient :=
  {| base_url := Py.rstrip "/" base_url;
     session := {| headers :=
       {[ "Content-Type" := "application/json";
          "User-Agent" := "nook-python-client/1.0" ]} ∪ default_headers |} |}.

(** The default of the [base_url] parameter. *)
Definition default_base_url : string := "http://localhost:8080".

Definition get_machines : M Json :=
  self ← get_self;
  response ← session_get (session self)
               (base_url self +:+ "/api/v0/machines");
  raise_for_status response;;
  response_json response.

Definition create_machine_data (name hostname : string)
    (ipv4 : option string) (network_id : option Z) : gmap string Json :=
  let data := {[ "name" := JStr name; "hostname" := JStr hostname ]} in
  let data := if Py.truthy_str ipv4
              then <["ipv4" := of_opt_str ipv4]> data else data in
  let data := if Py.truthy_int network_id
              then <["network_id" := of_opt_int network_id]> data else data in
  data.

Definition create_machine (name hostname : string)
    (ipv4 : option string) (network_id : option Z) : M Json :=
  self ← get_self;
  let data := create_machine_data name hostname ipv4 network_id in
  response ← session_post (session self)
               (base_url self +:+ "/api/v0/machines") data;
  raise_for_status response;;
  response_json response.

Definition get_machine_by_name (name : string) : M Json :=
  self ← get_self;
  response ← session_get (session self)
               (base_url self +:+ "/api/v0/machines/name/" +:+ name);
  raise_for_status response;;
  response_json response.

Definition delete_machine (machine_id : Z) : M unit :=
  self ← get_self;
  response ← session_delete (session self)
               (base_url self +:+ "/api/v0/machines/"
                  +:+ Py.str_int machine_id);
  raise_for_status response.

Definition get_networks : M Json :=
  self ← get_self;
  response ← session_get (session self)
               (base_url self +:+ "/api/v0/networks");
  raise_for_status response;;
  response_json response.

Definition create_network_data (name bridge subnet : string)
    (gateway dns_servers description : option string) : gmap string Json :=
  let data := {[ "name" := JStr name; "bridge" := JStr bridge;
                 "subnet" := JStr subnet ]} in
  let data := if Py.truthy_str gateway
              then <["gateway" := of_opt_str gateway]> data else data in
  let data := if Py.truthy_str dns_servers
              then <["dns_servers" := of_opt_str dns_servers]> data else data in
  let data := if Py.truthy_str description
              then <["description" := of_opt_str description]> data else data in
  data.

Definition create_network (name bridge subnet : string)
    (gateway dns_servers description : option string) : M Json :=
  self ← get_self;
  let data := create_network_data name bridge subnet
                gateway dns_servers description in
  response ← session_post (session self)
               (base_url self +:+ "/api/v0/networks") data;
  raise_for_status response;;
  response_json response.

Definition get_ssh_keys : M Json :=
  self ← get_self;
  response ← session_get (session self)
               (base_url self +:+ "/api/v0/ssh-keys");
  raise_for_status response;;
  response_json response.

Definition add_ssh_key_data (machine_id : Z) (key_text : string)
    : gmap string Json :=
  {[ "machine_id" := JInt machine_id; "key_text" := JStr key_text ]}.

Definition add_ssh_key (machine_id : Z) (key_text : string) : M Json :=
  self ← get_self;
  let data := add_ssh_key_data machine_id key_text in
  response ← session_post (session self)
               (base_url self +:+ "/api/v0/ssh-keys") data;
  raise_for_status response;;
  response_json response.

Definition delete_ssh_key (key_id : Z) : M unit :=
  self ← get_self;
  response ← session_delete (session self)
               (base_url self +:+ "/api/v0/ssh-keys/" +:+ Py.str_int key_id);
  raise_for_status response.

(** A method call with its arguments, and its execution.  The methods
    annotated [-> None] hand back [None]. *)
Inductive call : Type :=
  | GetMachines
  | CreateMachine (name hostname : string)
      (ipv4 : option string) (network_id : option Z)
  | GetMachineByName (name : string)
  | DeleteMachine (machine_id : Z)
  | GetNetworks
  | CreateNetwork (name bridge subnet : string)
      (gateway dns_servers description : option string)
  | GetSshKeys
  | AddSshKey (machine_id : Z) (key_text : string)
  | DeleteSshKey (key_id : Z).

Definition returning_json (m : M Json) : M value := j ← m; mret (VJson j).
Definition returning_none (m : M unit) : M value := m;; mret VNone.

Definition invoke (c : call) : M value :=
  match c with
  | GetMachines => returning_json get_machines
  | CreateMachine name hostname ipv4 network_id =>
      returning_json (create_machine name hostname ipv4 network_id)
  | GetMachineByName name => returning_json (get_machine_by_name name)
  | DeleteMachine machine_id => returning_none (delete_machine machine_id)
  | GetNetworks => returning_json get_networks
  | CreateNetwork name bridge subnet gateway dns_servers description =>
      returning_json
        (create_network name bridge subnet gateway dns_servers description)
  | GetSshKeys => returning_json get_ssh_keys
  | AddSshKey machine_id key_text =>
      returning_json (add_ssh_key machine_id key_text)
  | DeleteSshKey key_id => returning_none (delete_ssh_key key_id)
  end.

(** The methods that end in [return response.json()]. *)
Definition returns_json (c : call) : bool :=
  match c with
  | DeleteMachine _ | DeleteSshKey _ => false
  | _ => true
  end.

(** The requests a call adds to the wire. *)
Definition issued (c : call) (st : State) : list Request :=
  drop (length (wire st)) (wire (invoke c st).2).

(** A caller making several calls in a row, whatever each one returns or
    raises. *)
Definition run_all (cs : list call) (st : State) : State :=
  foldl (λ st c, (invoke c st).2) st cs.

(** A freshly constructed client facing a remote end. *)
Definition fresh (b : string) (r : Remote) (log : list Request) : State :=
  {| self := __init__ b; remote := r; wire := log |}.

End WithEnvironment.

Arguments self {Remote} _.
Arguments remote {Remote} _.
Arguments wire {Remote} _.
Arguments Build_State {Remote} _ _ _.
Arguments raise {Remote A} _ _.
Arguments get_self {Remote} _.
Arguments session_request {Remote} _ _ _ _ _ _.
Arguments session_get {Remote} _ _ _ _.
Arguments session_post {Remote} _ _ _ _ _.
Arguments session_delete {Remote} _ _ _ _.
Arguments raise_for_status {Remote} _ _.
Arguments response_json _ {Remote} _ _.
Arguments get_machines _ {Remote} _ _.
Arguments create_machine _ {Remote} _ _ _ _ _ _.
Arguments get_machine_by_name _ {Remote} _ _ _.
Arguments delete_machine {Remote} _ _ _.
Arguments get_networks _ {Remote} _ _.
Arguments create_network _ {Remote} _ _ _ _ _ _ _ _.
Arguments get_ssh_keys _ {Remote} _ _.
Arguments add_ssh_key _ {Remote} _ _ _ _.
Arguments delete_ssh_key {Remote} _ _ _.
Arguments returning_json {Remote} _ _.
Arguments returning_none {Remote} _ _.
Arguments invoke _ {Remote} _ _ _.
Arguments issued _ {Remote} _ _ _.
Arguments run_all _ {Remote} _ _ _.
Arguments fresh _ {Remote} _ _ _.

(** The endpoint table of the service's external interface: the verb and
    the path each client method stands for. *)
Definition endpoint (c : call) : verb * string :=
  match c with
  | GetMachines => (GET, "/api/v0/machines")
  | CreateMachine _ _ _ _ => (POST, "/api/v0/machines")
  | GetMachineByName name => (GET, "/api/v0/machines/name/" +:+ name)
  | DeleteMachine id => (DELETE, "/api/v0/machines/" +:+ Py.str_int id)
  | GetNetworks => (GET, "/api/v0/networks")
  | CreateNetwork _ _ _ _ _ _ => (POST, "/api/v0/networks")
  | GetSshKeys => (GET, "/api/v0/ssh-keys")
  | AddSshKey _ _ => (POST, "/api/v0/ssh-keys")
  | DeleteSshKey id => (DELETE, "/api/v0/ssh-keys/" +:+ Py.str_int id)
  end.

(** The value of the [json=] keyword in each method: the [data] dict of
    the three POST methods, nothing for the others. *)
Definition body (c : call) : option (gmap string Json) :=
  match c with
  | CreateMachine name hostname ipv4 network_id =>
      Some (create_machine_data name hostname ipv4 network_id)
  | CreateNetwork name bridge subnet gateway dns_servers description =>
      Some (create_network_data name bridge subnet gateway dns_servers
              description)
  | AddSshKey machine_id key_text => Some (add_ssh_key_data machine_id key_text)
  | _ => None
  end.

(** What a conditional assignment [if x: data[k] = x] stores under [k]:
    the argument when it is given and is not the empty string (not zero,
    for an integer), nothing otherwise. *)
Definition sent_str (o : option string) : option Json :=
  match o with
  | Some s => if decide (s = "") then None else Some (JStr s)
  | None => None
  end.

Definition sent_int (o : option Z) : option Json :=
  match o with
  | Some z => if decide (z = 0) then None else Some (JInt z)
  | None => None
  end.

Definition key_if (o : option Json) (k : string) : gset string :=
  match o with Some _ => {[ k ]} | None => ∅ end.

End client.

(** ** The metadata service: registries of networks, machines and SSH keys

    The service behind the HTTP interface is not among the sources; the
    definitions of this module follow the written design of its registries. *)
Module registry.

(** Modelled from the spec: the error kinds of the registries (the service
    implementation is missing from the sources). *)
Inductive error : Set :=
  | NotFound
  | DuplicateName
  | InvalidSubnet
  | UnknownNetwork
  | UnknownMachine
  | EmptyKey
  | ReferencedByMachine.

#[global] Instance error_eq_dec : EqDecision error.
Proof. solve_decision. Defined.

(** Modelled from the spec: the three resource kinds the Identifier
    Allocator tells apart (the service implementation is missing from the
    sources). *)
Inductive kind : Set := KNetwork | KMachine | KSSHKey.

(** Modelled from the spec: the Network record of the data model (the
    service's record types are missing from the sources). *)
Record Network : Type := {
  net_id : Z;
  net_name : string;
  net_bridge : string;
  net_subnet : string;
  net_gateway : option string;
  net_dns_servers : option string;
  net_description : option string
}.

(** Modelled from the spec: the Machine record of the data model (the
    service's record types are missing from the sources); [m_network_id] is
    the optional, non-owning reference to a network. *)
Record Machine : Type := {
  m_id : Z;
  m_name : string;
  m_hostname : string;
  m_ipv4 : option string;
  m_network_id : option Z
}.

(** Modelled from the spec: the SSHKey record of the data model (the
    service's record types are missing from the sources). *)
Record SSHKey : Type := {
  key_id : Z;
  key_machine_id : Z;
  key_text : string
}.

#[global] Instance Network_eq_dec : EqDecision Network.
Proof. solve_decision. Defined.
#[global] Instance Machine_eq_dec : EqDecision Machine.
Proof. solve_decision. Defined.
#[global] Instance SSHKey_eq_dec : EqDecision SSHKey.
Proof. solve_decision. Defined.

(** Modelled from the spec: the Identifier Allocator (missing from the
    sources).  It remembers, per resource kind, the last identifier it
    issued; nothing has been issued at start. *)
Record Allocator : Type := {
  last_network : Z;
  last_machine : Z;
  last_ssh_key : Z
}.

(** Modelled from the spec: the allocator at process start (missing from
    the sources); the first identifier of each kind will be 1. *)
Definition allocator_start : Allocator :=
  {| last_network := 0; last_machine := 0; last_ssh_key := 0 |}.

(** Modelled from the spec: the last identifier issued for a kind (the
    allocator is missing from the sources). *)
Definition last (k : kind) (a : Allocator) : Z :=
  match k with
  | KNetwork => last_network a
  | KMachine => last_machine a
  | KSSHKey => last_ssh_key a
  end.

(** Modelled from the spec: [next(resource_kind)] of the Identifier
    Allocator (missing from the sources): one more than the last
    identifier of that kind, so 1 at first, never an identifier again. *)
Definition next (k : kind) (a : Allocator) : Z * Allocator :=
  let i := last k a + 1 in
  (i,
   match k with
   | KNetwork => {| last_network := i; last_machine := last_machine a;
                    last_ssh_key := last_ssh_key a |}
   | KMachine => {| last_network := last_network a; last_machine := i;
                    last_ssh_key := last_ssh_key a |}
   | KSSHKey => {| last_network := last_network a;
                   last_machine := last_machine a; last_ssh_key := i |}
   end).

(** Modelled from the spec: the state of the service (missing from the
    sources): the allocator and the three registries, each holding its
    records in insertion order. *)
Record Service : Type := {
  alloc : Allocator;
  networks : list Network;
  machines : list Machine;
  ssh_keys : list SSHKey
}.

(** Modelled from the spec: the service at process start (missing from the
    sources): nothing stored, nothing issued. *)
Definition initial : Service :=
  {| alloc := allocator_start; networks := []; machines := [];
     ssh_keys := [] |}.

Section WithValidation.

(** The design names two syntactic checks without defining them: whether
    a subnet is in CIDR form, and whether a key text is blank. *)
Variable valid_cidr : string -> bool.
Variable blank : string -> bool.

(** *** Network Registry *)

(** Modelled from the spec: Network Registry [create] (missing from the
    sources): [DuplicateName] if the name is present, [InvalidSubnet] if
    the subnet is not valid CIDR, otherwise allocate, store and return
    the record. *)
Definition network_create (name bridge subnet : string)
    (gateway dns_servers description : option string) (s : Service)
    : (error + Network) * Service :=
  if decide (name ∈ net_name <$> networks s) then (inl DuplicateName, s)
  else if negb (valid_cidr subnet) then (inl InvalidSubnet, s)
  else
    let (i, a) := next KNetwork (alloc s) in
    let n := {| net_id := i; net_name := name; net_bridge := bridge;
                net_subnet := subnet; net_gateway := gateway;
                net_dns_servers := dns_servers;
                net_description := description |} in
    (inr n, {| alloc := a; networks := networks s ++ [n];
               machines := machines s; ssh_keys := ssh_keys s |}).

(** Modelled from the spec: Network Registry [list] (missing from the
    sources): all networks, in insertion order. *)
Definition network_list (s : Service) : list Network := networks s.

(** Modelled from the spec: Network Registry [getByName] (missing from
    the sources): [NotFound] if absent. *)
Definition network_getByName (name : string) (s : Service) : error + Network :=
  match list_find (λ n, net_name n = name) (networks s) with
  | Some (_, n) => inr n
  | None => inl NotFound
  end.

(** Modelled from the spec: Network Registry [getById] (missing from the
    sources); the design names no failure for it, an absent identifier
    gives no record. *)
Definition network_getById (id : Z) (s : Service) : option Network :=
  snd <$> list_find (λ n, net_id n = id) (networks s).

(** Modelled from the spec: Network Registry [delete] (missing from the
    sources): [NotFound] if absent, [ReferencedByMachine] if a machine
    references the network, otherwise the record is removed. *)
Definition network_delete (id : Z) (s : Service) : (error + unit) * Service :=
  if decide (id ∈ net_id <$> networks s) then
    if decide (Some id ∈ m_network_id <$> machines s)
    then (inl ReferencedByMachine, s)
    else (inr tt, {| alloc := alloc s;
                     networks := filter (λ n, net_id n ≠ id) (networks s);
                     machines := machines s; ssh_keys := ssh_keys s |})
  else (inl NotFound, s).

(** *** Machine Registry *)

(** Modelled from the spec: Machine Registry [create] (missing from the
    sources): [DuplicateName] if the name is present; if a network
    identifier is given, [UnknownNetwork] if the Network Registry has no
    such identifier; otherwise allocate, store and return the record. *)
Definition machine_create (name hostname : string) (ipv4 : option string)
    (network_id : option Z) (s : Service) : (error + Machine) * Service :=
  if decide (name ∈ m_name <$> machines s) then (inl DuplicateName, s)
  else
    match network_id with
    | Some nid =>
        if decide (nid ∈ net_id <$> networks s) then
          let (i, a) := next KMachine (alloc s) in
          let m := {| m_id := i; m_name := name; m_hostname := hostname;
                      m_ipv4 := ipv4; m_network_id := network_id |} in
          (inr m, {| alloc := a; networks := networks s;
                     machines := machines s ++ [m]; ssh_keys := ssh_keys s |})
        else (inl UnknownNetwork, s)
    | None =>
        let (i, a) := next KMachine (alloc s) in
        let m := {| m_id := i; m_name := name; m_hostname := hostname;
                    m_ipv4 := ipv4; m_network_id := network_id |} in
        (inr m, {| alloc := a; networks := networks s;
                   machines := machines s ++ [m]; ssh_keys := ssh_keys s |})
    end.

(** Modelled from the spec: Machine Registry [list] (missing from the
    sources): all machines, in insertion order. *)
Definition machine_list (s : Service) : list Machine := machines s.

(** Modelled from the spec: Machine Registry [getByName] (missing from
    the sources): [NotFound] if absent. *)
Definition machine_getByName (name : string) (s : Service) : error + Machine :=
  match list_find (λ m, m_name m = name) (machines s) with
  | Some (_, m) => inr m
  | None => inl NotFound
  end.

(** Modelled from the spec: Machine Registry [getById] (missing from the
    sources); the design names no failure for it. *)
Definition machine_getById (id : Z) (s : Service) : option Machine :=
  snd <$> list_find (λ m, m_id m = id) (machines s).

(** Modelled from the spec: Machine Registry [delete] (missing from the
    sources): [NotFound] if absent; otherwise delete all SSH keys owned
    by the machine, then remove the machine record. *)
Definition machine_delete (id : Z) (s : Service) : (error + unit) * Service :=
  if decide (id ∈ m_id <$> machines s) then
    let keys := filter (λ k, key_machine_id k ≠ id) (ssh_keys s) in
    (inr tt, {| alloc := alloc s; networks := networks s;
                machines := filter (λ m, m_id m ≠ id) (machines s);
                ssh_keys := keys |})
  else (inl NotFound, s).

(** *** SSH Key Registry *)

(** Modelled from the spec: SSH Key Registry [create] (missing from the
    sources): [UnknownMachine] if the machine identifier is invalid,
    [EmptyKey] if the key text is blank, otherwise allocate and store. *)
Definition ssh_key_create (machine_id : Z) (text : string) (s : Service)
    : (error + SSHKey) * Service :=
  if decide (machine_id ∈ m_id <$> machines s) then
    if blank text then (inl EmptyKey, s)
    else
      let (i, a) := next KSSHKey (alloc s) in
      let k := {| key_id := i; key_machine_id := machine_id;
                  key_text := text |} in
      (inr k, {| alloc := a; networks := networks s;
                 machines := machines s; ssh_keys := ssh_keys s ++ [k] |})
  else (inl UnknownMachine, s).

(** Modelled from the spec: SSH Key Registry [list] (missing from the
    sources): all keys, in insertion order. *)
Definition ssh_key_list (s : Service) : list SSHKey := ssh_keys s.

(** Modelled from the spec: SSH Key Registry [delete] (missing from the
    sources): [NotFound] if absent, otherwise the key is removed. *)
Definition ssh_key_delete (id : Z) (s : Service) : (error + unit) * Service :=
  if decide (id ∈ key_id <$> ssh_keys s) then
    (inr tt, {| alloc := alloc s; networks := networks s;
                machines := machines s;
                ssh_keys := filter (λ k, key_id k ≠ id) (ssh_keys s) |})
  else (inl NotFound, s).

(** *** Creation requests, uniformly *)

(** Modelled from the spec: the three [create] operations with their
    arguments (the service implementation is missing from the sources). *)
Inductive creation : Type :=
  | NewNetwork (name bridge subnet : string)
      (gateway dns_servers description : option string)
  | NewMachine (name hostname : string) (ipv4 : option string)
      (network_id : option Z)
  | NewSSHKey (machine_id : Z) (text : string).

(** Modelled from the spec: what a [create] returns (the service's record
    types are missing from the sources). *)
Inductive record : Type :=
  | RNetwork (n : Network)
  | RMachine (m : Machine)
  | RSSHKey (k : SSHKey).

(** The result of one registry's [create], as a result over [record]. *)
Definition tag {A : Type} (f : A -> record) (r : (error + A) * Service)
    : (error + record) * Service :=
  (match r.1 with inl e => inl e | inr a => inr (f a) end, r.2).

(** Modelled from the spec: the [create] of the registry a creation request
    is for (the service implementation is missing from the sources). *)
Definition create (c : creation) (s : Service) : (error + record) * Service :=
  match c with
  | NewNetwork name bridge subnet gateway dns_servers description =>
      tag RNetwork
        (network_create name bridge subnet gateway dns_servers description s)
  | NewMachine name hostname ipv4 network_id =>
      tag RMachine (machine_create name hostname ipv4 network_id s)
  | NewSSHKey machine_id text =>
      tag RSSHKey (ssh_key_create machine_id text s)
  end.

(** Modelled from the spec: what the three [list] operations show of a
    state (the service implementation is missing from the sources). *)
Definition listing (s : Service)
    : list Network * list Machine * list SSHKey :=
  (network_list s, machine_list s, ssh_key_list s).


(** Modelled from the spec: the requests that change the service, the
    [create] and [delete] operations of the three registries (the service
    implementation is missing from the sources). *)
Inductive request : Type :=
  | Create (c : creation)
  | DelNetwork (id : Z)
  | DelMachine (id : Z)
  | DelSSHKey (id : Z).

(** Modelled from the spec: the state a request leaves, whether it
    succeeds or fails (the service implementation is missing from the
    sources). *)
Definition handle (r : request) (s : Service) : Service :=
  match r with
  | Create c => (create c s).2
  | DelNetwork id => (network_delete id s).2
  | DelMachine id => (machine_delete id s).2
  | DelSSHKey id => (ssh_key_delete id s).2
  end.

End WithValidation.

(** Modelled from the spec: the invariants of the data model (the service
    implementation is missing from the sources): identifiers are unique
    within a kind and were issued by the allocator, names of networks and of
    machines are unique, a machine's network and a key's machine exist. *)
Record consistent (s : Service) : Prop := {
  network_ids_unique : NoDup (net_id <$> networks s);
  network_names_unique : NoDup (net_name <$> networks s);
  network_ids_issued :
    ∀ n, n ∈ networks s → 1 ≤ net_id n ≤ last KNetwork (alloc s);
  machine_ids_unique : NoDup (m_id <$> machines s);
  machine_names_unique : NoDup (m_name <$> machines s);
  machine_ids_issued :
    ∀ m, m ∈ machines s → 1 ≤ m_id m ≤ last KMachine (alloc s);
  key_ids_unique : NoDup (key_id <$> ssh_keys s);
  key_ids_issued :
    ∀ k, k ∈ ssh_keys s → 1 ≤ key_id k ≤ last KSSHKey (alloc s);
  allocator_started :
    0 ≤ last KNetwork (alloc s) ∧ 0 ≤ last KMachine (alloc s)
    ∧ 0 ≤ last KSSHKey (alloc s);
  machine_networks_exist :
    ∀ m nid, m ∈ machines s → m_network_id m = Some nid →
             nid ∈ net_id <$> networks s;
  key_machines_exist :
    ∀ k, k ∈ ssh_keys s → key_machine_id k ∈ m_id <$> machines s
}.

End registry.

(** ** Concrete environments and states, for running the definitions *)
Module examples.
Import client.

(** A decoder that knows two bodies: the empty array and [null]. *)
Definition loads (body : string) : option Json :=
  if String.eqb body "[]" then Some (JList [])
  else if String.eqb body "null" then Some JNull
  else None.

(** A remote end that answers every request with the same response. *)
Definition always (response : Response) (r : unit) (req : Request)
    : unit * option Response :=
  (r, Some response).

Definition multiple_choices : Response :=
  {| status_code := 300; text := "[]" |}.
Definition not_found : Response := {| status_code := 404; text := "null" |}.
Definition ok_empty : Response := {| status_code := 200; text := "[]" |}.

(** A client constructed with the default [base_url], before any call. *)
Definition start : State unit := fresh ∅ default_base_url tt [].

Definition start_headers : gmap string string :=
  {[ "Content-Type" := "application/json";
     "User-Agent" := "nook-python-client/1.0" ]}.

(** The request [get_machines] issues from [start]. *)
Definition get_machines_request : Request :=
  {| req_method := GET;
     req_url := "http://localhost:8080/api/v0/machines";
     req_headers := start_headers;
     req_json := None |}.

End examples.

(** ** The session's cookie jar

    Besides its headers, a [requests.Session] keeps the cookies that
    responses set, and sends them back with later requests.  The jar is an
    attribute of the session, [client.session.cookies], and so belongs to
    the client object.  For a method it is part of what lies behind
    [Session.request]: the remote end the method faces is the network
    together with the jar.  (All requests of a client go to one host;
    cookies are taken without attributes, so none expires or is limited to
    a path.) *)
Module cookiejar.
Import client.

(** What goes over the network: the request handed to the session, and
    the cookies of the jar, sent as the [Cookie] header. *)
Record Sent : Type := {
  sent_request : Request;
  sent_cookies : gmap string string
}.

(** What comes back: the response, and the cookies it sets with
    [Set-Cookie]. *)
Record Received : Type := {
  received_response : Response;
  set_cookies : gmap string string
}.

Section WithNetwork.

Variable Net : Type.
Variable exchange : Net -> Sent -> Net * option Received.

(** [Session.request] with the jar: the cookies of the jar go out with the
    request, and the cookies of the answer are put into the jar. *)
Definition serve (r : Net * gmap string string) (req : Request)
    : (Net * gmap string string) * option Response :=
  let (net, jar) := r in
  let (net', answer) :=
    exchange net {| sent_request := req; sent_cookies := jar |} in
  match answer with
  | Some a => ((net', set_cookies a ∪ jar), Some (received_response a))
  | None => ((net', jar), None)
  end.

End WithNetwork.

Arguments serve {Net} _ _ _.

(** A network that keeps what it was sent and answers every request with
    status 200, an empty array and the cookie [session=abc]. *)
Definition sets_cookie (net : list Sent) (s : Sent)
    : list Sent * option Received :=
  (net ++ [s],
   Some {| received_response := examples.ok_empty;
           set_cookies := {[ "session" := "abc" ]} |}).

(** A client constructed with the default [base_url]: nothing was sent,
    and the jar of its new session is empty. *)
Definition start : State (list Sent * gmap string string) :=
  fresh ∅ default_base_url ([], ∅) [].

End cookiejar.

(** ** A concrete run of the service, for running the definitions *)
Module scenario.
Import registry.

(** Sample validation: one subnet counts as valid CIDR, the empty text
    counts as blank. *)
Definition cidr (subnet : string) : bool :=
  String.eqb subnet "192.168.100.0/24".
Definition blank (text : string) : bool := String.eqb text "".

Definition example_net : Network :=
  {| net_id := 1; net_name := "example-net"; net_bridge := "br0";
     net_subnet := "192.168.100.0/24"; net_gateway := None;
     net_dns_servers := None; net_description := None |}.

Definition example_vm : Machine :=
  {| m_id := 1; m_name := "example-vm"; m_hostname := "example-vm.local";
     m_ipv4 := Some "192.168.100.10"; m_network_id := Some 1 |}.

Definition example_key : SSHKey :=
  {| key_id := 1; key_machine_id := 1; key_text := "ssh-rsa AAAA..." |}.

(** The service after one network, one machine on it and one key for the
    machine have been created, in this order, from the empty service. *)
Definition with_net : Service :=
  (network_create cidr "example-net" "br0" "192.168.100.0/24"
     None None None initial).2.
Definition with_vm : Service :=
  (machine_create "example-vm" "example-vm.local" (Some "192.168.100.10")
     (Some 1) with_net).2.
Definition with_key : Service :=
  (ssh_key_create blank 1 "ssh-rsa AAAA..." with_vm).2.

End scenario.

(** ** Python values at run time

    The methods are annotated but not checked: [example_usage] hands them
    whatever the decoded responses hold.  This module gives the operations
    of Python on decoded JSON that the example relies on.  (Decoded JSON is
    taken without floating-point numbers.) *)
Module dyn.

(** The exceptions the example can meet: those a client method raises,
    those of subscripting and iterating, and those of opening and reading
    the key file. *)
Inductive exception : Type :=
  | RequestError (e : exn)
  | KeyError (key : string)
  | TypeError
  | FileNotFoundError
  | OtherError.

Inductive result (A : Type) : Type :=
  | Ok (a : A)
  | Err (e : exception).
Arguments Ok {A} a.
Arguments Err {A} e.

(** The truth value of [v] in [if v:]. *)
Definition truthy (v : Json) : bool :=
  match v with
  | JNull => false
  | JBool b => b
  | JInt z => negb (z =? 0)
  | JStr s => negb (String.eqb s "")
  | JList l => match l with [] => false | _ :: _ => true end
  | JDict d => match map_to_list d with [] => false | _ :: _ => true end
  end.

(** [v[key]] for a string [key]: a [dict] gives the value or raises
    [KeyError]; every other value raises [TypeError]. *)
Definition subscript (v : Json) (key : string) : result Json :=
  match v with
  | JDict d =>
      match d !! key with
      | Some x => Ok x
      | None => Err (KeyError key)
      end
  | _ => Err TypeError
  end.

(** The one-character strings of a string. *)
Fixpoint characters (s : string) : list Json :=
  match s with
  | EmptyString => []
  | String a s' => JStr (String a EmptyString) :: characters s'
  end.

(** The items [for x in v] goes through: the elements of a [list], the
    keys of a [dict], the characters of a [str]; every other value raises
    [TypeError]. *)
Definition iterate (v : Json) : result (list Json) :=
  match v with
  | JList l => Ok l
  | JDict d => Ok (JStr <$> (map_to_list d).*1)
  | JStr s => Ok (characters s)
  | _ => Err TypeError
  end.

(** [str(v)], which is what an f-string field [{v}] expands to; [repr]
    stands for the text Python gives a [list] or a [dict]. *)
Definition str (repr : Json -> string) (v : Json) : string :=
  match v with
  | JNull => "None"
  | JBool true => "True"
  | JBool false => "False"
  | JInt z => Py.str_int z
  | JStr s => s
  | JList _ | JDict _ => repr v
  end.

End dyn.

(** ** The script: [example_usage] *)
Module script.
Import client dyn.

(** What opening and reading the key file gives: its text, or
    [FileNotFoundError], or another failure. *)
Inductive file_result : Type :=
  | FileText (content : string)
  | FileMissing
  | FileFailure.

Section WithEnvironment.

(** As for the client: the session's initial headers, the decoder and the
    remote end. *)
Variable default_headers : gmap string string.
Variable json_loads : string -> option Json.
Variable Remote : Type.
Variable serve : Remote -> Request -> Remote * option Response.

(** What else lies outside the file: the key file, [str.strip], the text
    of a [list] or [dict], the text of an exception, and whether the
    installed [requests] makes the decoder's error a [RequestException]. *)
Variable key_file : file_result.
Variable strip : string -> string.
Variable repr : Json -> string.
Variable message : exception -> string.
Variable json_error_is_request_exception : bool.

#[local] Existing Instance M_ret.
#[local] Existing Instance M_bind.

(** The course every method that returns decoded JSON runs: one request,
    the status test, the decoder. *)
Definition course (v : verb) (path : string)
    (body : option (gmap string Json)) : M Remote Json :=
  self ← get_self;
  response ← session_request serve (session self) v
               (base_url self +:+ path) body;
  raise_for_status response;;
  response_json json_loads response.

(** [create_machine] and [add_ssh_key] as the example calls them, with a
    value taken from a decoded response as [network_id] and as
    [machine_id]. *)
Definition create_machine_data_dyn (name hostname : string)
    (ipv4 : option string) (network_id : Json) : gmap string Json :=
  let data := {[ "name" := JStr name; "hostname" := JStr hostname ]} in
  let data := if Py.truthy_str ipv4
              then <["ipv4" := of_opt_str ipv4]> data else data in
  let data := if truthy network_id
              then <["network_id" := network_id]> data else data in
  data.

Definition create_machine_dyn (name hostname : string)
    (ipv4 : option string) (network_id : Json) : M Remote Json :=
  self ← get_self;
  let data := create_machine_data_dyn name hostname ipv4 network_id in
  response ← session_post serve (session self)
               (base_url self +:+ "/api/v0/machines") data;
  raise_for_status response;;
  response_json json_loads response.

Definition add_ssh_key_data_dyn (machine_id : Json) (key_text : string)
    : gmap string Json :=
  {[ "machine_id" := machine_id; "key_text" := JStr key_text ]}.

Definition add_ssh_key_dyn (machine_id : Json) (key_text : string)
    : M Remote Json :=
  self ← get_self;
  let data := add_ssh_key_data_dyn machine_id key_text in
  response ← session_post serve (session self)
               (base_url self +:+ "/api/v0/ssh-keys") data;
  raise_for_status response;;
  response_json json_loads response.

(** The state the script runs in: the state of its client, and the lines
    printed so far. *)
Record Env : Type := {
  client_state : State Remote;
  stdout : list string
}.

Definition S (A : Type) : Type := Env -> result A * Env.

#[local] Instance S_ret : MRet S := λ A a env, (Ok a, env).
#[local] Instance S_bind : MBind S := λ A B f m env,
  match m env with
  | (Ok a, env') => f a env'
  | (Err e, env') => (Err e, env')
  end.

(** A value or an exception that needs no state. *)
Definition pure {A : Type} (r : result A) : S A := λ env, (r, env).

(** A call of a client method: what the method raises is raised here. *)
Definition call {A : Type} (m : M Remote A) : S A := λ env,
  let (o, st) := m (client_state env) in
  (match o with
   | Return a => Ok a
   | Raise e => Err (RequestError e)
   end,
   {| client_state := st; stdout := stdout env |}).

(** [print(line)]. *)
Definition print (line : string) : S unit := λ env,
  (Ok tt,
   {| client_state := client_state env; stdout := stdout env ++ [line] |}).

(** [with open(path, 'r') as f: f.read().strip()]. *)
Definition read_key_file : S string :=
  pure match key_file with
       | FileText content => Ok (strip content)
       | FileMissing => Err FileNotFoundError
       | FileFailure => Err OtherError
       end.

(** [for x in v: body], stopping at the first exception. *)
Fixpoint each (items : list Json) (body : Json -> S unit) : S unit :=
  match items with
  | [] => mret tt
  | x :: rest => body x;; each rest body
  end.

Definition for_in (v : Json) (body : Json -> S unit) : S unit :=
  items ← pure (iterate v);
  each items body.

(** [try: body] followed by the [except] clauses. *)
Definition try_except (body : S unit) (handler : exception -> S unit)
    : S unit := λ env,
  match body env with
  | (Ok a, env') => (Ok a, env')
  | (Err e, env') => handler e env'
  end.

(** [isinstance(e, requests.exceptions.RequestException)]. *)
Definition is_request_exception (e : exception) : bool :=
  match e with
  | RequestError JSONDecodeError => json_error_is_request_exception
  | RequestError _ => true
  | _ => false
  end.

(** The three [except] clauses of [example_usage], tried in order. *)
Definition handlers (e : exception) : S unit :=
  if is_request_exception e then
    print ("API request failed: " +:+ message e)
  else
    match e with
    | FileNotFoundError =>
        print "SSH key file not found. Update the path in the example."
    | _ => print ("Unexpected error: " +:+ message e)
    end.

(** The bodies of the three listing loops. *)
Definition print_machine (m : Json) : S unit :=
  name ← pure (subscript m "name");
  ipv4 ← pure (subscript m "ipv4");
  print ("  - " +:+ str repr name +:+ " (" +:+ str repr ipv4 +:+ ")").

Definition print_network (n : Json) : S unit :=
  name ← pure (subscript n "name");
  subnet ← pure (subscript n "subnet");
  print ("  - " +:+ str repr name +:+ " (" +:+ str repr subnet +:+ ")").

Definition print_key (k : Json) : S unit :=
  id ← pure (subscript k "id");
  machine_id ← pure (subscript k "machine_id");
  print ("  - Key " +:+ str repr id +:+ " for machine "
         +:+ str repr machine_id).

(** The statements under [try:]. *)
Definition example_body : S unit :=
  print "Creating network...";;
  network ← call (create_network json_loads serve
                    "example-net" "br0" "192.168.100.0/24"
                    (Some "192.168.100.1") None
                    (Some "Example network for testing"));
  name ← pure (subscript network "name");
  id ← pure (subscript network "id");
  print ("Created network: " +:+ str repr name
         +:+ " (ID: " +:+ str repr id +:+ ")");;
  print "Creating machine...";;
  network_id ← pure (subscript network "id");
  machine ← call (create_machine_dyn "example-vm" "example-vm.local"
                    (Some "192.168.100.10") network_id);
  name ← pure (subscript machine "name");
  id ← pure (subscript machine "id");
  print ("Created machine: " +:+ str repr name
         +:+ " (ID: " +:+ str repr id +:+ ")");;
  print "Adding SSH key...";;
  ssh_key_text ← read_key_file;
  machine_id ← pure (subscript machine "id");
  ssh_key ← call (add_ssh_key_dyn machine_id ssh_key_text);
  id ← pure (subscript ssh_key "id");
  print ("Added SSH key (ID: " +:+ str repr id +:+ ")");;
  print "Listing all machines:";;
  machines ← call (get_machines json_loads serve);
  for_in machines print_machine;;
  print "Listing all networks:";;
  networks ← call (get_networks json_loads serve);
  for_in networks print_network;;
  print "Listing all SSH keys:";;
  keys ← call (get_ssh_keys json_loads serve);
  for_in keys print_key.

(** [example_usage()], after [client = NookClient("http://localhost:8080")]
    has set up the client. *)
Definition example_usage : S unit := try_except example_body handlers.

(** The state in which the [try] statement starts: the client has just been
    constructed, it faces a remote end, and nothing is printed yet. *)
Definition at_start (r : Remote) : Env :=
  {| client_state := fresh default_headers "http://localhost:8080" r [];
     stdout := [] |}.

(** A run of the script against a remote end. *)
Definition run (r : Remote) : result unit * Env := example_usage (at_start r).

End WithEnvironment.

Arguments client_state {Remote} _.
Arguments stdout {Remote} _.
Arguments Build_Env {Remote} _ _.
Arguments course _ {Remote} _ _ _ _ _.
Arguments create_machine_dyn _ {Remote} _ _ _ _ _ _.
Arguments add_ssh_key_dyn _ {Remote} _ _ _ _.
Arguments pure {Remote A} _ _.
Arguments call {Remote A} _ _.
Arguments print {Remote} _ _.
Arguments read_key_file {Remote} _ _ _.
Arguments each {Remote} _ _ _.
Arguments for_in {Remote} _ _ _.
Arguments try_except {Remote} _ _ _.
Arguments handlers {Remote} _ _ _ _.
Arguments print_machine {Remote} _ _ _.
Arguments print_network {Remote} _ _ _.
Arguments print_key {Remote} _ _ _.
Arguments example_body _ {Remote} _ _ _ _ _.
Arguments example_usage _ {Remote} _ _ _ _ _ _ _.
Arguments at_start _ {Remote} _.
Arguments run _ _ {Remote} _ _ _ _ _ _ _.

(** The verb and the URL of a request. *)
Definition target (q : Request) : verb * string := (req_method q, req_url q).

(** [sends c lo hi m]: run in any state whose client object is [c], the
    computation [m] leaves the client object alone and only adds requests
    to the wire; the targets of the added requests begin with [lo] and are
    a beginning of [hi], and they are all of [hi] when [m] raises
    nothing. *)
Definition sends {Remote A : Type} (c : NookClient)
    (lo hi : list (verb * string)) (m : S Remote A) : Prop :=
  ∀ env : Env Remote, self (client_state env) = c →
    ∃ new : list Request,
      wire (client_state (m env).2) = wire (client_state env) ++ new ∧
      self (client_state (m env).2) = c ∧
      lo `prefix_of` (target <$> new) ∧
      (target <$> new) `prefix_of` hi ∧
      (∀ a : A, (m env).1 = Ok a → target <$> new = hi).

(** The six requests of the script, in the order of its statements. *)
Definition plan : list (verb * string) :=
  [ (POST, "http://localhost:8080/api/v0/networks");
    (POST, "http://localhost:8080/api/v0/machines");
    (POST, "http://localhost:8080/api/v0/ssh-keys");
    (GET, "http://localhost:8080/api/v0/machines");
    (GET, "http://localhost:8080/api/v0/networks");
    (GET, "http://localhost:8080/api/v0/ssh-keys") ].

End script.

(** ** A concrete run of the script, for running the definitions *)
Module script_examples.
Import client dyn script.

(** The answer of a remote end that accepts every request: status 201 and
    a body that the sample decoder below reads as one record. *)
Definition created : Response := {| status_code := 201; text := "record" |}.

Definition record : Json :=
  JDict {[ "name" := JStr "example"; "id" := JInt 7 ]}.

Definition loads (body : string) : option Json :=
  if String.eqb body "record" then Some record else None.

(** Sample texts for the values and exceptions Python would describe. *)
Definition repr (v : Json) : string := "<value>".
Definition message (e : exception) : string := "<reason>".

(** Sample [strip]: the key file is taken to hold no surrounding blanks. *)
Definition strip (s : string) : string := s.

(** The script against a remote end that accepts everything, and against
    one that refuses everything with status 404. *)
Definition accepted (key_file : file_result) : result unit * Env unit :=
  run ∅ loads (examples.always created) key_file strip repr message true tt.

Definition refused : result unit * Env unit :=
  run ∅ loads (examples.always examples.not_found) FileMissing strip repr
    message true tt.

(** The request of the key, when the key file holds ["ssh-rsa AAAA"] and
    the machine was given the identifier 7. *)
Definition key_request : Request :=
  {| req_method := POST;
     req_url := "http://localhost:8080/api/v0/ssh-keys";
     req_headers := examples.start_headers;
     req_json := Some {[ "machine_id" := JInt 7;
                         "key_text" := JStr "ssh-rsa AAAA" ]} |}.

(** The request of the machine, when the network was given the
    identifier 7. *)
Definition machine_request : Request :=
  {| req_method := POST;
     req_url := "http://localhost:8080/api/v0/machines";
     req_headers := examples.start_headers;
     req_json := Some {[ "name" := JStr "example-vm";
                         "hostname" := JStr "example-vm.local";
                         "ipv4" := JStr "192.168.100.10";
                         "network_id" := JInt 7 ]} |}.

(** A machine as a listing shows it. *)
Definition listed_vm : Json :=
  JDict {[ "name" := JStr "example-vm"; "ipv4" := JStr "192.168.100.10" ]}.

(** A state of the script in which nothing was sent or printed. *)
Definition quiet_start : Env unit :=
  {| client_state := examples.start; stdout := [] |}.

End script_examples.

(** * Properties of the client *)

(** ** [rstrip] *)
Module rstrip_facts.
Import Py.

Lemma char_in_slash (a : ascii) : char_in a "/" = true ↔ a = "/"%char.
Proof.
  simpl. rewrite orb_false_r. apply Ascii.eqb_eq.
Qed.

Lemma rstrip_repeat (n : nat) : rstrip "/" (repeat_char "/" n) = "".
Proof.
  induction n as [|n IH]; [reflexivity|].
  simpl. simpl in IH. rewrite IH. reflexivity.
Qed.

Lemma rstrip_app_repeat (s : string) (n : nat) :
  rstrip "/" (s +:+ repeat_char "/" n) = rstrip "/" s.
Proof.
  induction s as [|a s IH].
  - apply rstrip_repeat.
  - change (String a s +:+ repeat_char "/" n)
      with (String a (s +:+ repeat_char "/" n)).
    cbn [rstrip]. rewrite IH. reflexivity.
Qed.

Lemma rstrip_decompose (s : string) :
  ∃ k : nat, s = rstrip "/" s +:+ repeat_char "/" k.
Proof.
  induction s as [|a s [k IH]].
  - exists 0%nat. reflexivity.
  - cbn [rstrip]. destruct (rstrip "/" s) as [|b r] eqn:E.
    + destruct (char_in a "/") eqn:Ha.
      * apply char_in_slash in Ha. subst a. exists (S k).
        rewrite IH at 1. reflexivity.
      * exists k. rewrite IH at 1. reflexivity.
    + exists k. rewrite IH at 1. reflexivity.
Qed.

Lemma rstrip_no_trailing (s t : string) : rstrip "/" s ≠ t +:+ "/".
Proof.
  revert t. induction s as [|a s IH]; intros t.
  - destruct t; discriminate.
  - cbn [rstrip]. destruct (rstrip "/" s) as [|b r] eqn:E.
    + destruct (char_in a "/") eqn:Ha.
      * destruct t; discriminate.
      * destruct t as [|c t]; intros H.
        -- injection H as ->. discriminate.
        -- injection H as _ H. destruct t; discriminate.
    + destruct t as [|c t]; intros H.
      * discriminate.
      * injection H as _ H. exact (IH t H).
Qed.

Lemma rstrip_idempotent (s : string) : rstrip "/" (rstrip "/" s) = rstrip "/" s.
Proof.
  induction s as [|a s IH]; [reflexivity|].
  cbn [rstrip]. destruct (rstrip "/" s) as [|b r] eqn:E.
  - destruct (char_in a "/") eqn:Ha; [reflexivity|].
    cbn [rstrip]. rewrite Ha. reflexivity.
  - cbn [rstrip]. cbn [rstrip] in IH. rewrite IH. reflexivity.
Qed.

Example rstrip_trailing :
  rstrip "/" "http://localhost:8080///" = "http://localhost:8080".
Proof. reflexivity. Qed.

Example rstrip_keeps_inner_slashes :
  rstrip "/" "http://localhost:8080/nook/" = "http://localhost:8080/nook".
Proof. reflexivity. Qed.

Example rstrip_only_slashes : rstrip "/" "//" = "".
Proof. reflexivity. Qed.

Example str_int_decimal :
  str_int 42 = "42" ∧ str_int 0 = "0" ∧ str_int (-7) = "-7".
Proof. repeat split. Qed.

End rstrip_facts.

(** ** Requests and outcomes of the methods *)
Module client_facts.
Import client.

(** Run the body of a method: unfold the monad, then split on the answer
    of the remote end, on the status test and on the decoder. *)
Ltac unfold_method :=
  unfold issued, invoke, returning_json, returning_none,
    get_machines, create_machine, get_machine_by_name, delete_machine,
    get_networks, create_network, get_ssh_keys, add_ssh_key, delete_ssh_key,
    session_get, session_post, session_delete, session_request,
    raise_for_status, response_json, get_self, raise,
    mbind, mret, M_bind, M_ret in *;
  cbn [self remote wire fst snd] in *.

Section WithEnvironment.

Variable default_headers : gmap string string.
Variable json_loads : string -> option Json.
Variable Remote : Type.
Variable serve : Remote -> Request -> Remote * option Response.

Abbreviation State := (State Remote).
Abbreviation invoke := (invoke json_loads serve).
Abbreviation issued := (issued json_loads serve).
Abbreviation run_all := (run_all json_loads serve).
Abbreviation fresh := (fresh default_headers).
Abbreviation __init__ := (__init__ default_headers).

Ltac split_answer :=
  repeat match goal with
  | |- context [serve ?r ?q] =>
      let r' := fresh "remote'" in
      let a := fresh "answer" in
      let E := fresh "Eserve" in
      destruct (serve r q) as [r' [a|]] eqn:E
  | |- context [is_error_status ?s] =>
      let E := fresh "Estatus" in destruct (is_error_status s) eqn:E
  | |- context [json_loads ?t] =>
      let E := fresh "Ejson" in destruct (json_loads t) eqn:E
  end;
  cbn [self remote wire fst snd] in *.

(** Every call puts one request on the wire, with the session's headers,
    and leaves the client object as it was. *)
Lemma invoke_frame (c : call) (st : State) :
  ∃ req : Request,
    wire (invoke c st).2 = wire st ++ [req] ∧
    req_headers req = headers (session (self st)) ∧
    self (invoke c st).2 = self st.
Proof.
  destruct c; unfold_method; split_answer; eexists; (split; [reflexivity|]);
    split; reflexivity.
Qed.

Lemma run_all_self (cs : list call) (st : State) :
  self (run_all cs st) = self st.
Proof.
  revert st. induction cs as [|c cs IH]; intros st; [reflexivity|].
  cbn [client.run_all foldl]. etrans; [apply IH|].
  destruct (invoke_frame c st) as (req & _ & _ & Hself). exact Hself.
Qed.

(** The request of a call, read off the wire. *)
Lemma issued_request (c : call) (st : State) :
  ∃ req : Request,
    issued c st = [req] ∧
    req_method req = (endpoint c).1 ∧
    req_url req = base_url (self st) +:+ (endpoint c).2 ∧
    req_headers req = headers (session (self st)).
Proof.
  destruct c; unfold_method; split_answer;
    rewrite drop_app_length; eexists; (split; [reflexivity|]);
    repeat split; reflexivity.
Qed.

(** C4: every method issues exactly one request, whose verb is the one
    the endpoint table lists for the method and whose URL is the path
    listed for it appended to the client's [base_url]; for a client
    constructed from [b], that is [b] without its trailing slashes. *)
Theorem method_issues_listed_endpoint (c : call) :
  (∀ st : State, ∃ req : Request,
      issued c st = [req] ∧
      req_method req = (endpoint c).1 ∧
      req_url req = base_url (self st) +:+ (endpoint c).2) ∧
  (∀ (b : string) (r : Remote) (log : list Request), ∃ req : Request,
      issued c (fresh b r log) = [req] ∧
      req_method req = (endpoint c).1 ∧
      req_url req = Py.rstrip "/" b +:+ (endpoint c).2) ∧
  (endpoint GetMachines = (GET, "/api/v0/machines") ∧
   (∀ n h i k,
      endpoint (CreateMachine n h i k) = (POST, "/api/v0/machines")) ∧
   (∀ name, endpoint (GetMachineByName name)
            = (GET, "/api/v0/machines/name/" +:+ name)) ∧
   (∀ id, endpoint (DeleteMachine id)
          = (DELETE, "/api/v0/machines/" +:+ Py.str_int id)) ∧
   endpoint GetNetworks = (GET, "/api/v0/networks") ∧
   (∀ n b s g d e, endpoint (CreateNetwork n b s g d e)
                   = (POST, "/api/v0/networks")) ∧
   endpoint GetSshKeys = (GET, "/api/v0/ssh-keys") ∧
   (∀ m k, endpoint (AddSshKey m k) = (POST, "/api/v0/ssh-keys")) ∧
   (∀ id, endpoint (DeleteSshKey id)
          = (DELETE, "/api/v0/ssh-keys/" +:+ Py.str_int id))).
Proof.
  split; [|split].
  - intros st. destruct (issued_request c st) as (req & H1 & H2 & H3 & _).
    exists req. auto.
  - intros b r log.
    destruct (issued_request c (fresh b r log)) as (req & H1 & H2 & H3 & _).
    exists req. auto.
  - repeat split.
Qed.

Lemma is_error_status_spec (s : Z) :
  is_error_status s = true ↔ 400 ≤ s < 600.
Proof. unfold is_error_status. lia. Qed.

(** The outcome of a call, in terms of the answer to its request. *)
Lemma invoke_outcome (c : call) (st : State) :
  ∃ req : Request,
    issued c st = [req] ∧
    (invoke c st).1 =
      match (serve (remote st) req).2 with
      | None => Raise ConnectionError
      | Some response =>
          if is_error_status (status_code response)
          then Raise (HTTPError response)
          else if returns_json c then
            match json_loads (text response) with
            | Some j => Return (VJson j)
            | None => Raise JSONDecodeError
            end
          else Return VNone
      end.
Proof.
  destruct c; unfold_method; split_answer;
    rewrite drop_app_length; eexists; (split; [reflexivity|]);
    rewrite Eserve; cbn [snd returns_json];
    rewrite ?Estatus, ?Ejson; reflexivity.
Qed.

(** C1 (amended): when the request of a call is answered by a response,
    the status code decides the outcome.  A status from 400 to 599 makes
    the call raise [HTTPError], so that it returns no value.  With any
    other status, 2xx or not, the methods ending in
    [return response.json()] return the decoded body (and raise the
    decoder's error when the body is not JSON), and [delete_machine] and
    [delete_ssh_key] return [None]. *)
Theorem status_code_decides_outcome
    (c : call) (st : State) (req : Request)
    (remote' : Remote) (response : Response) :
  issued c st = [req] →
  serve (remote st) req = (remote', Some response) →
  (400 ≤ status_code response < 600 →
     (invoke c st).1 = Raise (HTTPError response)) ∧
  (¬ 400 ≤ status_code response < 600 →
     (invoke c st).1 =
       if returns_json c then
         match json_loads (text response) with
         | Some j => Return (VJson j)
         | None => Raise JSONDecodeError
         end
       else Return VNone) ∧
  (200 ≤ status_code response < 300 →
     (returns_json c = false → (invoke c st).1 = Return VNone) ∧
     (returns_json c = true → ∀ j : Json,
        json_loads (text response) = Some j →
        (invoke c st).1 = Return (VJson j))).
Proof.
  intros Hreq Hserve.
  destruct (invoke_outcome c st) as (req0 & Hreq0 & Hout).
  rewrite Hreq in Hreq0. injection Hreq0 as <-.
  rewrite Hserve in Hout. cbn [snd] in Hout.
  pose proof (is_error_status_spec (status_code response)) as Hspec.
  destruct (is_error_status (status_code response)).
  - split; [intros _; exact Hout|].
    split; [intros Hn; exfalso; apply Hn; apply Hspec; reflexivity|].
    intros H2.
    assert (400 ≤ status_code response < 600) by (apply Hspec; reflexivity).
    lia.
  - split; [intros H4; apply Hspec in H4; discriminate|].
    split; [intros _; exact Hout|].
    intros _. split.
    + intros Hc. rewrite Hc in Hout. exact Hout.
    + intros Hc j Hj. rewrite Hc, Hj in Hout. exact Hout.
Qed.

(** *** Request bodies *)

Lemma truthy_str_spec (o : option string) :
  Py.truthy_str o = match o with
                    | Some s => if decide (s = "") then false else true
                    | None => false
                    end.
Proof.
  destruct o as [s|]; [|reflexivity]. unfold Py.truthy_str.
  destruct (String.eqb_spec s ""); case_decide; simpl; congruence.
Qed.

Lemma truthy_int_spec (o : option Z) :
  Py.truthy_int o = match o with
                    | Some z => if decide (z = 0) then false else true
                    | None => false
                    end.
Proof.
  destruct o as [z|]; [|reflexivity]. unfold Py.truthy_int.
  destruct (Z.eqb_spec z 0); case_decide; simpl; congruence.
Qed.

(** Conditional assignment [if b: data[k] = v]. *)
Lemma lookup_cond_insert_ne (b : bool) (k k' : string) (v : Json)
    (m : gmap string Json) :
  k ≠ k' → (if b then <[k := v]> m else m) !! k' = m !! k'.
Proof.
  intros Hne. destruct b; [apply lookup_insert_ne; exact Hne|reflexivity].
Qed.

Lemma lookup_cond_insert_eq (b : bool) (k : string) (v : Json)
    (m : gmap string Json) :
  (if b then <[k := v]> m else m) !! k = if b then Some v else m !! k.
Proof. destruct b; [apply lookup_insert_eq|reflexivity]. Qed.

Lemma dom_cond_insert (b : bool) (k : string) (v : Json)
    (m : gmap string Json) :
  dom (if b then <[k := v]> m else m) = dom m ∪ (if b then {[ k ]} else ∅).
Proof.
  destruct b.
  - rewrite dom_insert_L. apply (comm_L (∪)).
  - symmetry. apply (right_id_L ∅ (∪)).
Qed.

Lemma sent_str_spec (o : option string) :
  sent_str o = if Py.truthy_str o then Some (of_opt_str o) else None.
Proof.
  rewrite truthy_str_spec. destruct o as [s|]; [|reflexivity].
  simpl. case_decide; reflexivity.
Qed.

Lemma sent_int_spec (o : option Z) :
  sent_int o = if Py.truthy_int o then Some (of_opt_int o) else None.
Proof.
  rewrite truthy_int_spec. destruct o as [z|]; [|reflexivity].
  simpl. case_decide; reflexivity.
Qed.

Lemma key_if_cond (b : bool) (v : Json) (k : string) :
  key_if (if b then Some v else None) k = if b then {[ k ]} else ∅.
Proof. destruct b; reflexivity. Qed.

Lemma create_machine_data_lookup name hostname ipv4 network_id :
  let data := create_machine_data name hostname ipv4 network_id in
  data !! "name" = Some (JStr name) ∧
  data !! "hostname" = Some (JStr hostname) ∧
  data !! "ipv4" = sent_str ipv4 ∧
  data !! "network_id" = sent_int network_id ∧
  dom data = {[ "name"; "hostname" ]}
             ∪ key_if (sent_str ipv4) "ipv4"
             ∪ key_if (sent_int network_id) "network_id".
Proof.
  unfold create_machine_data. cbv zeta.
  rewrite sent_str_spec, sent_int_spec, !key_if_cond.
  repeat split.
  - rewrite !lookup_cond_insert_ne by discriminate. reflexivity.
  - rewrite !lookup_cond_insert_ne by discriminate. reflexivity.
  - rewrite lookup_cond_insert_ne by discriminate.
    rewrite lookup_cond_insert_eq. reflexivity.
  - rewrite lookup_cond_insert_eq, lookup_cond_insert_ne by discriminate.
    reflexivity.
  - rewrite !dom_cond_insert, dom_insert_L, dom_singleton_L. reflexivity.
Qed.

Lemma create_network_data_lookup name bridge subnet gateway dns_servers
    description :
  let data := create_network_data name bridge subnet gateway dns_servers
                description in
  data !! "name" = Some (JStr name) ∧
  data !! "bridge" = Some (JStr bridge) ∧
  data !! "subnet" = Some (JStr subnet) ∧
  data !! "gateway" = sent_str gateway ∧
  data !! "dns_servers" = sent_str dns_servers ∧
  data !! "description" = sent_str description ∧
  dom data = {[ "name"; "bridge"; "subnet" ]}
             ∪ key_if (sent_str gateway) "gateway"
             ∪ key_if (sent_str dns_servers) "dns_servers"
             ∪ key_if (sent_str description) "description".
Proof.
  unfold create_network_data. cbv zeta.
  rewrite !sent_str_spec, !key_if_cond.
  repeat split.
  - rewrite !lookup_cond_insert_ne by discriminate. reflexivity.
  - rewrite !lookup_cond_insert_ne by discriminate. reflexivity.
  - rewrite !lookup_cond_insert_ne by discriminate. reflexivity.
  - rewrite !lookup_cond_insert_ne by discriminate.
    rewrite lookup_cond_insert_eq. reflexivity.
  - rewrite lookup_cond_insert_ne by discriminate.
    rewrite lookup_cond_insert_eq, lookup_cond_insert_ne by discriminate.
    reflexivity.
  - rewrite lookup_cond_insert_eq, !lookup_cond_insert_ne by discriminate.
    reflexivity.
  - rewrite !dom_cond_insert, !dom_insert_L, dom_singleton_L.
    rewrite (assoc_L (∪) {[ "name" ]}). reflexivity.
Qed.

(** C2 (amended): [create_machine] sends one POST to [/api/v0/machines]
    whose JSON body binds [name] and [hostname] to the arguments, binds
    [ipv4] to the argument exactly when it is given and is not the empty
    string, binds [network_id] to the argument exactly when it is given
    and is not zero, and has no other key. *)
Theorem create_machine_body (name hostname : string)
    (ipv4 : option string) (network_id : option Z) (st : State) :
  ∃ (req : Request) (data : gmap string Json),
    issued (CreateMachine name hostname ipv4 network_id) st = [req] ∧
    req_method req = POST ∧
    req_url req = base_url (self st) +:+ "/api/v0/machines" ∧
    req_json req = Some data ∧
    data !! "name" = Some (JStr name) ∧
    data !! "hostname" = Some (JStr hostname) ∧
    data !! "ipv4" = sent_str ipv4 ∧
    data !! "network_id" = sent_int network_id ∧
    dom data = {[ "name"; "hostname" ]}
               ∪ key_if (sent_str ipv4) "ipv4"
               ∪ key_if (sent_int network_id) "network_id".
Proof.
  unfold_method; split_answer; rewrite drop_app_length;
    eexists; eexists; (split; [reflexivity|]);
    cbn [req_method req_url req_json];
    do 3 (split; [reflexivity|]);
    apply create_machine_data_lookup.
Qed.

(** C3 (amended): [create_network] sends one POST to [/api/v0/networks]
    whose JSON body always binds [name], [bridge] and [subnet] to the
    arguments, binds each of [gateway], [dns_servers] and [description]
    to its argument exactly when that argument is given and is not the
    empty string, and has no other key. *)
Theorem create_network_body (name bridge subnet : string)
    (gateway dns_servers description : option string) (st : State) :
  ∃ (req : Request) (data : gmap string Json),
    issued (CreateNetwork name bridge subnet gateway dns_servers
              description) st = [req] ∧
    req_method req = POST ∧
    req_url req = base_url (self st) +:+ "/api/v0/networks" ∧
    req_json req = Some data ∧
    data !! "name" = Some (JStr name) ∧
    data !! "bridge" = Some (JStr bridge) ∧
    data !! "subnet" = Some (JStr subnet) ∧
    data !! "gateway" = sent_str gateway ∧
    data !! "dns_servers" = sent_str dns_servers ∧
    data !! "description" = sent_str description ∧
    dom data = {[ "name"; "bridge"; "subnet" ]}
               ∪ key_if (sent_str gateway) "gateway"
               ∪ key_if (sent_str dns_servers) "dns_servers"
               ∪ key_if (sent_str description) "description".
Proof.
  unfold_method; split_answer; rewrite drop_app_length;
    eexists; eexists; (split; [reflexivity|]);
    cbn [req_method req_url req_json];
    do 3 (split; [reflexivity|]);
    apply create_network_data_lookup.
Qed.

(** C8: [add_ssh_key] sends, for every [machine_id] and [key_text], one
    POST to [/api/v0/ssh-keys] whose JSON body binds exactly the two keys
    [machine_id] and [key_text] to the arguments; this includes the
    empty key text and the machine identifier zero, whereas the bodies
    of [create_machine] and [create_network] leave such optional
    arguments out.  Nothing is checked before sending: the request goes
    on the wire whatever the arguments are. *)
Theorem add_ssh_key_body (machine_id : Z) (key_text : string) (st : State) :
  (∃ (req : Request) (data : gmap string Json),
     issued (AddSshKey machine_id key_text) st = [req] ∧
     req_method req = POST ∧
     req_url req = base_url (self st) +:+ "/api/v0/ssh-keys" ∧
     req_json req = Some data ∧
     data !! "machine_id" = Some (JInt machine_id) ∧
     data !! "key_text" = Some (JStr key_text) ∧
     dom data = {[ "machine_id"; "key_text" ]}) ∧
  req_json <$> issued (AddSshKey 0 "") st
    = [Some {[ "machine_id" := JInt 0; "key_text" := JStr "" ]}] ∧
  (∀ name hostname : string,
     dom (create_machine_data name hostname (Some "") (Some 0))
     = {[ "name"; "hostname" ]}) ∧
  (∀ name bridge subnet : string,
     dom (create_network_data name bridge subnet (Some "") (Some "") (Some ""))
     = {[ "name"; "bridge"; "subnet" ]}).
Proof.
  split; [|split; [|split]].
  - unfold_method; split_answer; rewrite drop_app_length;
      eexists; eexists; (split; [reflexivity|]);
      cbn [req_method req_url req_json];
      do 3 (split; [reflexivity|]);
      unfold add_ssh_key_data;
      (split; [apply lookup_insert_eq|]);
      (split; [rewrite lookup_insert_ne by discriminate;
               apply lookup_singleton_eq|]);
      rewrite dom_insert_L, dom_singleton_L; reflexivity.
  - unfold_method; split_answer; rewrite drop_app_length; reflexivity.
  - intros name hostname.
    destruct (create_machine_data_lookup name hostname (Some "") (Some 0))
      as (_ & _ & _ & _ & ->).
    reflexivity.
  - intros name bridge subnet.
    destruct (create_network_data_lookup name bridge subnet
                (Some "") (Some "") (Some ""))
      as (_ & _ & _ & _ & _ & _ & ->).
    reflexivity.
Qed.

(** *** The constructor and the client object *)

(** The whole request of a call: it is built from the client object and
    the arguments of the call, and from nothing else. *)
Lemma issued_whole_request (c : call) (st : State) :
  issued c st =
    [{| req_method := (endpoint c).1;
        req_url := base_url (self st) +:+ (endpoint c).2;
        req_headers := headers (session (self st));
        req_json := body c |}].
Proof.
  destruct c; unfold_method; split_answer;
    rewrite drop_app_length; reflexivity.
Qed.

(** C9: a client constructed from [b] followed by [n] slashes is the
    client constructed from [b]; every call on it runs exactly as on the
    other, with the same request URL.  The [base_url] kept by the
    constructor is [b] without all of its trailing slashes. *)
Theorem trailing_slashes_are_stripped (b : string) (n : nat) :
  __init__ (b +:+ Py.repeat_char "/" n) = __init__ b ∧
  (∀ (c : call) (r : Remote) (log : list Request),
     invoke c (fresh (b +:+ Py.repeat_char "/" n) r log)
     = invoke c (fresh b r log)) ∧
  (∀ (c : call) (r : Remote) (log : list Request),
     req_url <$> issued c (fresh (b +:+ Py.repeat_char "/" n) r log)
     = req_url <$> issued c (fresh b r log)) ∧
  (∃ k : nat, b = base_url (__init__ b) +:+ Py.repeat_char "/" k) ∧
  (∀ t : string, base_url (__init__ b) ≠ t +:+ "/").
Proof.
  assert (Hinit : __init__ (b +:+ Py.repeat_char "/" n) = __init__ b).
  { unfold client.__init__. rewrite rstrip_facts.rstrip_app_repeat.
    reflexivity. }
  split; [exact Hinit|].
  split; [intros c r log; unfold client.fresh; rewrite Hinit; reflexivity|].
  split; [intros c r log; unfold client.fresh; rewrite Hinit; reflexivity|].
  split.
  - apply rstrip_facts.rstrip_decompose.
  - apply rstrip_facts.rstrip_no_trailing.
Qed.

End WithEnvironment.

(** C10 (amended): after any sequence of calls on a client constructed
    from [b], whatever they returned or raised, [base_url] and the
    session's headers are the ones the constructor set: [base_url] is [b]
    stripped, and the headers are the session's initial ones updated with
    [Content-Type: application/json] and
    [User-Agent: nook-python-client/1.0].  No method assigns to either. *)
Theorem methods_keep_base_url_and_headers
    (default_headers : gmap string string)
    (json_loads : string -> option Json)
    (Remote : Type)
    (serve : Remote -> Request -> Remote * option Response)
    (b : string) (cs : list call) (r : Remote) (log : list Request) :
  let st := run_all json_loads serve cs (fresh default_headers b r log) in
  self st = __init__ default_headers b ∧
  base_url (self st) = Py.rstrip "/" b ∧
  headers (session (self st))
    = {[ "Content-Type" := "application/json";
         "User-Agent" := "nook-python-client/1.0" ]} ∪ default_headers ∧
  headers (session (self st)) !! "Content-Type" = Some "application/json" ∧
  headers (session (self st)) !! "User-Agent" = Some "nook-python-client/1.0".
Proof.
  intros st.
  assert (H : self st = __init__ default_headers b) by apply run_all_self.
  split; [exact H|]. rewrite H.
  repeat split; cbn [__init__ session headers].
  - apply lookup_union_Some_l. reflexivity.
  - apply lookup_union_Some_l. reflexivity.
Qed.

(** *** The methods on concrete responses *)

Import examples.

Example get_machines_ok :
  invoke loads (always ok_empty) GetMachines start
  = (Return (VJson (JList [])),
     {| self := self start; remote := tt; wire := [get_machines_request] |}).
Proof. reflexivity. Qed.

Example delete_machine_url :
  issued loads (always ok_empty) (DeleteMachine 42) start
  = [{| req_method := DELETE;
        req_url := "http://localhost:8080/api/v0/machines/42";
        req_headers := start_headers;
        req_json := None |}] ∧
  (invoke loads (always ok_empty) (DeleteMachine 42) start).1 = Return VNone.
Proof. split; reflexivity. Qed.

Example get_machine_by_name_url :
  req_url <$> issued loads (always not_found) (GetMachineByName "example-vm")
                (fresh ∅ "http://nook.local/" tt [])
  = ["http://nook.local/api/v0/machines/name/example-vm"].
Proof. reflexivity. Qed.

Example create_machine_full_body :
  req_json <$> issued loads (always ok_empty)
                 (CreateMachine "example-vm" "example-vm.local"
                    (Some "192.168.100.10") (Some 1)) start
  = [Some {[ "name" := JStr "example-vm";
             "hostname" := JStr "example-vm.local";
             "ipv4" := JStr "192.168.100.10";
             "network_id" := JInt 1 ]}].
Proof. reflexivity. Qed.

(** C1, as stated, fails: a response with status 300 is not 2xx, yet
    [get_machines] raises nothing and returns the decoded body. *)
Lemma multiple_choices_returns_value :
  is_2xx (status_code multiple_choices) = false ∧
  issued loads (always multiple_choices) GetMachines start
    = [get_machines_request] ∧
  always multiple_choices tt get_machines_request
    = (tt, Some multiple_choices) ∧
  (invoke loads (always multiple_choices) GetMachines start).1
    = Return (VJson (JList [])).
Proof. repeat split. Qed.

(** The amended C1 on two answers: at status 404 [get_machines] raises,
    at status 200 it returns the decoded body. *)
Lemma status_code_decides_outcome_on_answers :
  (issued loads (always not_found) GetMachines start = [get_machines_request] ∧
   always not_found tt get_machines_request = (tt, Some not_found) ∧
   400 ≤ status_code not_found < 600 ∧
   (invoke loads (always not_found) GetMachines start).1
     = Raise (HTTPError not_found)) ∧
  (issued loads (always ok_empty) GetMachines start = [get_machines_request] ∧
   always ok_empty tt get_machines_request = (tt, Some ok_empty) ∧
   200 ≤ status_code ok_empty < 300 ∧
   returns_json GetMachines = true ∧
   loads (text ok_empty) = Some (JList []) ∧
   (invoke loads (always ok_empty) GetMachines start).1
     = Return (VJson (JList []))).
Proof.
  split.
  - split; [reflexivity|]. split; [reflexivity|]. split; [simpl; lia|].
    refine (proj1 (status_code_decides_outcome loads unit (always not_found)
                     GetMachines start get_machines_request tt not_found
                     _ _) _).
    + reflexivity.
    + reflexivity.
    + simpl. lia.
  - split; [reflexivity|]. split; [reflexivity|]. split; [simpl; lia|].
    split; [reflexivity|]. split; [reflexivity|].
    refine (proj2 (proj2 (proj2 (status_code_decides_outcome loads unit
                     (always ok_empty) GetMachines start get_machines_request
                     tt ok_empty _ _)) _) _ (JList []) _).
    + reflexivity.
    + reflexivity.
    + simpl. lia.
    + reflexivity.
    + reflexivity.
Defined.

(** C2, as stated, fails: with [ipv4] given as the empty string and
    [network_id] given as zero, both arguments are provided, yet the body
    holds [name] and [hostname] only. *)
Lemma create_machine_drops_falsy_arguments :
  req_json <$> issued loads (always ok_empty)
                 (CreateMachine "example-vm" "example-vm.local"
                    (Some "") (Some 0)) start
  = [Some {[ "name" := JStr "example-vm";
             "hostname" := JStr "example-vm.local" ]}] ∧
  create_machine_data "example-vm" "example-vm.local" (Some "") (Some 0)
    !! "ipv4" = None ∧
  create_machine_data "example-vm" "example-vm.local" (Some "") (Some 0)
    !! "network_id" = None.
Proof. repeat split. Qed.

(** C3, as stated, fails: with [gateway] given as the empty string the
    argument is provided, yet the body has no [gateway] key. *)
Lemma create_network_drops_empty_gateway :
  req_json <$> issued loads (always ok_empty)
                 (CreateNetwork "example-net" "br0" "192.168.100.0/24"
                    (Some "") None None) start
  = [Some {[ "name" := JStr "example-net"; "bridge" := JStr "br0";
             "subnet" := JStr "192.168.100.0/24" ]}] ∧
  create_network_data "example-net" "br0" "192.168.100.0/24"
    (Some "") None None !! "gateway" = None.
Proof. repeat split. Qed.

(** C10, as stated, fails.  Against a remote end that sets a cookie, the
    first [get_machines] leaves the cookie in the session's jar, which was
    empty at construction: the call has changed the client's session.  The
    second [get_machines], with the same [base_url] and the same (no)
    arguments, then sends a request that differs from the first by its
    cookie: the request is no function of [base_url] and the arguments
    alone. *)
Lemma cookie_changes_later_request :
  let st0 := cookiejar.start in
  let st1 := (invoke loads (cookiejar.serve cookiejar.sets_cookie)
                GetMachines st0).2 in
  let st2 := (invoke loads (cookiejar.serve cookiejar.sets_cookie)
                GetMachines st1).2 in
  (remote st0).2 = ∅ ∧
  (remote st1).2 = {[ "session" := "abc" ]} ∧
  self st1 = self st0 ∧
  (remote st2).1
  = [ {| cookiejar.sent_request := get_machines_request;
         cookiejar.sent_cookies := ∅ |};
      {| cookiejar.sent_request := get_machines_request;
         cookiejar.sent_cookies := {[ "session" := "abc" ]} |} ] ∧
  (∅ : gmap string string) !! "session" = None ∧
  ({[ "session" := "abc" ]} : gmap string string) !! "session" = Some "abc".
Proof. repeat split. Qed.

End client_facts.

(** * Properties of the registries *)
Module registry_facts.
Import registry.

Lemma elem_of_ids {A : Type} (f : A -> Z) (l : list A) (x : A) :
  x ∈ l → f x ∈ f <$> l.
Proof. apply list_elem_of_fmap_2. Qed.

(** C5: for a stored machine [m], Machine Registry [delete(m.id)]
    succeeds, after which no machine with that identifier and no SSH key
    of that machine is listed, while the machines and keys of other
    identifiers and all networks (and the allocator) are as before;
    [delete] of an identifier no stored machine has fails with [NotFound]
    and changes nothing. *)
Theorem machine_delete_cascades (s : Service) :
  (∀ m : Machine, m ∈ machine_list s →
     ∃ s' : Service,
       machine_delete (m_id m) s = (inr tt, s') ∧
       (m ∉ machine_list s') ∧
       (∀ k : SSHKey, k ∈ ssh_key_list s' → key_machine_id k ≠ m_id m) ∧
       machine_list s' = filter (λ m', m_id m' ≠ m_id m) (machine_list s) ∧
       ssh_key_list s'
         = filter (λ k, key_machine_id k ≠ m_id m) (ssh_key_list s) ∧
       network_list s' = network_list s ∧
       alloc s' = alloc s) ∧
  (∀ id : Z, (∀ m : Machine, m ∈ machine_list s → m_id m ≠ id) →
     machine_delete id s = (inl NotFound, s)).
Proof.
  split.
  - intros m Hm. unfold machine_delete.
    destruct (decide (m_id m ∈ m_id <$> machines s)) as [_|Hn].
    + eexists. split; [reflexivity|].
      unfold machine_list, ssh_key_list, network_list. cbn.
      split; [|split; [|repeat split]].
      * intros Hin. apply list_elem_of_filter in Hin as [Hne _].
        apply Hne. reflexivity.
      * intros k Hin. apply list_elem_of_filter in Hin as [Hne _].
        exact Hne.
    + exfalso. apply Hn. apply elem_of_ids. exact Hm.
  - intros id Hid. unfold machine_delete.
    destruct (decide (id ∈ m_id <$> machines s)) as [Hin|_]; [|reflexivity].
    apply list_elem_of_fmap in Hin as (m & -> & Hm).
    exfalso. exact (Hid m Hm eq_refl).
Qed.

(** C6: for a stored network [n] that some stored machine references,
    Network Registry [delete(n.id)] fails with [ReferencedByMachine] and
    leaves the state as it was, so that [n] is still listed; [delete] of
    an identifier no stored network has fails with [NotFound]. *)
Theorem network_delete_guarded (s : Service) :
  (∀ (n : Network) (m : Machine),
     n ∈ network_list s → m ∈ machine_list s →
     m_network_id m = Some (net_id n) →
     network_delete (net_id n) s = (inl ReferencedByMachine, s) ∧
     n ∈ network_list (network_delete (net_id n) s).2) ∧
  (∀ id : Z, (∀ n : Network, n ∈ network_list s → net_id n ≠ id) →
     network_delete id s = (inl NotFound, s)).
Proof.
  split.
  - intros n m Hn Hm Href.
    assert (Hdel : network_delete (net_id n) s = (inl ReferencedByMachine, s)).
    { unfold network_delete.
      destruct (decide (net_id n ∈ net_id <$> networks s)) as [_|Hno].
      - destruct (decide (Some (net_id n) ∈ m_network_id <$> machines s))
          as [_|Hno]; [reflexivity|].
        exfalso. apply Hno. rewrite <- Href.
        apply list_elem_of_fmap_2. exact Hm.
      - exfalso. apply Hno. apply elem_of_ids. exact Hn. }
    split; [exact Hdel|]. rewrite Hdel. exact Hn.
  - intros id Hid. unfold network_delete.
    destruct (decide (id ∈ net_id <$> networks s)) as [Hin|_]; [|reflexivity].
    apply list_elem_of_fmap in Hin as (n & -> & Hn).
    exfalso. exact (Hid n Hn eq_refl).
Qed.

Section WithValidation.

Variable valid_cidr : string -> bool.
Variable blank : string -> bool.

Abbreviation create := (create valid_cidr blank).

(** C7: a creation of a network, a machine or an SSH key that fails
    leaves the service as it was: the three listings are those from
    before the call, the allocator has issued nothing, and any later
    creation runs as if the failed call had not been made.  The failure
    is one of [DuplicateName], [InvalidSubnet], [UnknownNetwork],
    [UnknownMachine] and [EmptyKey]. *)
Theorem failed_create_changes_nothing
    (c : creation) (s : Service) (e : error) :
  (create c s).1 = inl e →
  (create c s).2 = s ∧
  listing (create c s).2 = listing s ∧
  alloc (create c s).2 = alloc s ∧
  (∀ c' : creation, create c' (create c s).2 = create c' s) ∧
  e ∈ [DuplicateName; InvalidSubnet; UnknownNetwork; UnknownMachine;
       EmptyKey].
Proof.
  intros Hfail.
  assert (H : (create c s).2 = s ∧
              e ∈ [DuplicateName; InvalidSubnet; UnknownNetwork;
                   UnknownMachine; EmptyKey]).
  { destruct c as [name bridge subnet gateway dns description
                  |name hostname ipv4 network_id
                  |machine_id text];
      unfold registry.create, tag in *; cbn [fst snd] in *.
    - unfold network_create in *.
      destruct (decide (name ∈ net_name <$> networks s)).
      + cbn in *. injection Hfail as <-. split; [reflexivity|repeat constructor].
      + destruct (valid_cidr subnet); cbn in *.
        * discriminate.
        * injection Hfail as <-. split; [reflexivity|repeat constructor].
    - unfold machine_create in *.
      destruct (decide (name ∈ m_name <$> machines s)).
      + cbn in *. injection Hfail as <-. split; [reflexivity|repeat constructor].
      + destruct network_id as [nid|]; cbn in *.
        * destruct (decide (nid ∈ net_id <$> networks s)); cbn in *.
          -- discriminate.
          -- injection Hfail as <-. split; [reflexivity|repeat constructor].
        * discriminate.
    - unfold ssh_key_create in *.
      destruct (decide (machine_id ∈ m_id <$> machines s)).
      + destruct (blank text); cbn in *.
        * injection Hfail as <-. split; [reflexivity|repeat constructor].
        * discriminate.
      + cbn in *. injection Hfail as <-. split; [reflexivity|repeat constructor]. }
  destruct H as [Hs He]. rewrite Hs. auto.
Qed.

(** *** Consistency of the reachable states *)

Lemma NoDup_fmap_filter {A B : Type} (f : A -> B) (P : A -> Prop)
    `{!∀ x, Decision (P x)} (l : list A) :
  NoDup (f <$> l) → NoDup (f <$> filter P l).
Proof.
  induction l as [|x l IH]; [intros; constructor|].
  rewrite fmap_cons, NoDup_cons. intros [Hx Hl].
  rewrite filter_cons. destruct (decide (P x)); [|auto].
  rewrite fmap_cons, NoDup_cons. split; [|auto].
  intros Hin. apply Hx.
  apply list_elem_of_fmap in Hin as (y & -> & Hy).
  apply list_elem_of_filter in Hy as [_ Hy].
  apply list_elem_of_fmap_2. exact Hy.
Qed.

Lemma NoDup_fmap_snoc {A B : Type} (f : A -> B) (l : list A) (x : A) :
  NoDup (f <$> l) → f x ∉ f <$> l → NoDup (f <$> l ++ [x]).
Proof.
  intros Hl Hx. rewrite fmap_app. apply NoDup_app.
  split; [exact Hl|]. split; [|apply NoDup_singleton].
  intros y Hy Hin. apply list_elem_of_singleton in Hin. subst y.
  exact (Hx Hy).
Qed.

Lemma next_id_fresh {A : Type} (f : A -> Z) (l : list A) (b : Z) :
  (∀ x, x ∈ l → 1 ≤ f x ≤ b) → b + 1 ∉ f <$> l.
Proof.
  intros Hb Hin. apply list_elem_of_fmap in Hin as (x & Hx & Hl).
  specialize (Hb x Hl). lia.
Qed.

Lemma issued_snoc {A : Type} (f : A -> Z) (l : list A) (x : A) (b : Z) :
  0 ≤ b → f x = b + 1 →
  (∀ y, y ∈ l → 1 ≤ f y ≤ b) →
  ∀ y, y ∈ l ++ [x] → 1 ≤ f y ≤ b + 1.
Proof.
  intros Hb Hx Hl y Hy. apply elem_of_app in Hy as [Hy|Hy].
  - specialize (Hl y Hy). lia.
  - apply list_elem_of_singleton in Hy. subst y. lia.
Qed.

Lemma issued_filter {A : Type} (f : A -> Z) (P : A -> Prop)
    `{!∀ x, Decision (P x)} (l : list A) (b : Z) :
  (∀ y, y ∈ l → 1 ≤ f y ≤ b) → ∀ y, y ∈ filter P l → 1 ≤ f y ≤ b.
Proof.
  intros Hl y Hy. apply list_elem_of_filter in Hy as [_ Hy]. auto.
Qed.

Lemma elem_of_ids_filter {A : Type} (f : A -> Z) (l : list A) (i j : Z) :
  i ∈ f <$> l → i ≠ j → i ∈ f <$> filter (λ x, f x ≠ j) l.
Proof.
  intros Hin Hne. apply list_elem_of_fmap in Hin as (x & -> & Hx).
  apply list_elem_of_fmap_2. apply list_elem_of_filter. auto.
Qed.

Lemma consistent_initial : consistent initial.
Proof.
  split; cbn;
    first [ solve [constructor]
          | lia
          | intros ? ? H; solve [inversion H]
          | intros ? H; solve [inversion H] ].
Qed.

Lemma consistent_network_create name bridge subnet gateway dns description s :
  consistent s →
  consistent (network_create valid_cidr name bridge subnet gateway dns
                description s).2.
Proof.
  intros [].
  unfold network_create.
  destruct (decide (name ∈ net_name <$> networks s)) as [|Hname];
    [split; assumption|].
  destruct (valid_cidr subnet); [|split; assumption].
  cbn in *. split; cbn; try assumption.
  - apply NoDup_fmap_snoc; [assumption|]. cbn.
    apply next_id_fresh. assumption.
  - apply NoDup_fmap_snoc; assumption.
  - apply issued_snoc; [lia|reflexivity|assumption].
  - lia.
  - intros m nid Hm Hnid. rewrite fmap_app. apply elem_of_app. left. eauto.
Qed.

Lemma consistent_machine_create name hostname ipv4 network_id s :
  consistent s →
  consistent (machine_create name hostname ipv4 network_id s).2.
Proof.
  intros [].
  unfold machine_create.
  destruct (decide (name ∈ m_name <$> machines s)) as [|Hname];
    [split; assumption|].
  assert (Hgoal :
    (∀ nid, network_id = Some nid → nid ∈ net_id <$> networks s) →
    consistent
      {| alloc := {| last_network := last_network (alloc s);
                     last_machine := last_machine (alloc s) + 1;
                     last_ssh_key := last_ssh_key (alloc s) |};
         networks := networks s;
         machines := machines s ++
           [{| m_id := last_machine (alloc s) + 1; m_name := name;
               m_hostname := hostname; m_ipv4 := ipv4;
               m_network_id := network_id |}];
         ssh_keys := ssh_keys s |}).
  { intros Hnet. cbn in *. split; cbn; try assumption.
    - apply NoDup_fmap_snoc; [assumption|]. cbn.
      apply next_id_fresh. assumption.
    - apply NoDup_fmap_snoc; assumption.
    - apply issued_snoc; [lia|reflexivity|assumption].
    - lia.
    - intros m nid Hm Hnid. apply elem_of_app in Hm as [Hm|Hm]; [eauto|].
      apply list_elem_of_singleton in Hm. subst m. cbn in Hnid. auto.
    - intros k Hk. rewrite fmap_app. apply elem_of_app. left. auto. }
  destruct network_id as [nid|].
  - destruct (decide (nid ∈ net_id <$> networks s)) as [Hin|];
      [|split; assumption].
    apply Hgoal. intros ? [= <-]. exact Hin.
  - apply Hgoal. discriminate.
Qed.

Lemma consistent_ssh_key_create machine_id text s :
  consistent s → consistent (ssh_key_create blank machine_id text s).2.
Proof.
  intros [].
  unfold ssh_key_create.
  destruct (decide (machine_id ∈ m_id <$> machines s)) as [Hm|];
    [|split; assumption].
  destruct (blank text); [split; assumption|].
  cbn in *. split; cbn; try assumption.
  - apply NoDup_fmap_snoc; [assumption|]. cbn.
    apply next_id_fresh. assumption.
  - apply issued_snoc; [lia|reflexivity|assumption].
  - lia.
  - intros k Hk. apply elem_of_app in Hk as [Hk|Hk]; [auto|].
    apply list_elem_of_singleton in Hk. subst k. exact Hm.
Qed.

Lemma consistent_network_delete id s :
  consistent s → consistent (network_delete id s).2.
Proof.
  intros [].
  unfold network_delete.
  destruct (decide (id ∈ net_id <$> networks s)); [|split; assumption].
  destruct (decide (Some id ∈ m_network_id <$> machines s)) as [|Href];
    [split; assumption|].
  cbn in *. split; cbn; try assumption.
  - apply NoDup_fmap_filter. assumption.
  - apply NoDup_fmap_filter. assumption.
  - apply issued_filter. assumption.
  - intros m nid Hm Hnid. apply elem_of_ids_filter; [eauto|].
    intros ->. apply Href. rewrite <- Hnid. apply list_elem_of_fmap_2. exact Hm.
Qed.

Lemma consistent_machine_delete id s :
  consistent s → consistent (machine_delete id s).2.
Proof.
  intros [].
  unfold machine_delete.
  destruct (decide (id ∈ m_id <$> machines s)); [|split; assumption].
  cbn in *. split; cbn; try assumption.
  - apply NoDup_fmap_filter. assumption.
  - apply NoDup_fmap_filter. assumption.
  - apply issued_filter. assumption.
  - apply NoDup_fmap_filter. assumption.
  - apply issued_filter. assumption.
  - intros m nid Hm Hnid. apply list_elem_of_filter in Hm as [_ Hm]. eauto.
  - intros k Hk. apply list_elem_of_filter in Hk as [Hne Hk].
    apply elem_of_ids_filter; auto.
Qed.

Lemma consistent_ssh_key_delete id s :
  consistent s → consistent (ssh_key_delete id s).2.
Proof.
  intros [].
  unfold ssh_key_delete.
  destruct (decide (id ∈ key_id <$> ssh_keys s)); [|split; assumption].
  cbn in *. split; cbn; try assumption.
  - apply NoDup_fmap_filter. assumption.
  - apply issued_filter. assumption.
  - intros k Hk. apply list_elem_of_filter in Hk as [_ Hk]. auto.
Qed.

(** Whatever requests the service has handled since it started, failed ones
    included, its state is consistent: identifiers and names are unique and
    no reference dangles. *)
Lemma consistent_reachable (rs : list request) :
  consistent (foldl (λ s r, handle valid_cidr blank r s) initial rs).
Proof.
  induction rs as [|r rs IH] using rev_ind; [apply consistent_initial|].
  rewrite foldl_snoc.
  destruct r as [[name bridge subnet gateway dns description
                 |name hostname ipv4 network_id
                 |machine_id text]|id|id|id];
    cbn [handle registry.create tag snd].
  - apply consistent_network_create, IH.
  - apply consistent_machine_create, IH.
  - apply consistent_ssh_key_create, IH.
  - apply consistent_network_delete, IH.
  - apply consistent_machine_delete, IH.
  - apply consistent_ssh_key_delete, IH.
Qed.

End WithValidation.

(** *** The scenario of one network, one machine and one key *)

Import scenario.

Lemma scenario_states :
  with_net = {| alloc := {| last_network := 1; last_machine := 0;
                            last_ssh_key := 0 |};
                networks := [example_net]; machines := []; ssh_keys := [] |} ∧
  with_vm = {| alloc := {| last_network := 1; last_machine := 1;
                           last_ssh_key := 0 |};
               networks := [example_net]; machines := [example_vm];
               ssh_keys := [] |} ∧
  with_key = {| alloc := {| last_network := 1; last_machine := 1;
                            last_ssh_key := 1 |};
                networks := [example_net]; machines := [example_vm];
                ssh_keys := [example_key] |}.
Proof. repeat split. Qed.

(** C5 on the scenario: deleting the machine empties the machine and key
    listings and keeps the network; deleting a machine that is not there
    fails with [NotFound]. *)
Lemma machine_delete_cascades_scenario :
  (example_vm ∈ machine_list with_key ∧
   ∃ s' : Service,
     machine_delete 1 with_key = (inr tt, s') ∧
     machine_list s' = [] ∧
     ssh_key_list s' = [] ∧
     network_list s' = [example_net]) ∧
  ((∀ m : Machine, m ∈ machine_list with_net → m_id m ≠ 1) ∧
   machine_delete 1 with_net = (inl NotFound, with_net)).
Proof.
  pose proof (machine_delete_cascades with_key) as [Hdel _].
  pose proof (machine_delete_cascades with_net) as [_ Hnf].
  assert (Hin : example_vm ∈ machine_list with_key)
    by apply list_elem_of_here.
  assert (Hnone : ∀ m : Machine, m ∈ machine_list with_net → m_id m ≠ 1)
    by (intros m H; inversion H).
  split.
  - split; [exact Hin|].
    destruct (Hdel example_vm Hin) as (s' & H1 & _ & _ & H4 & H5 & H6 & _).
    exists s'. split; [exact H1|]. rewrite H4, H5, H6. repeat split.
  - split; [exact Hnone|exact (Hnf 1 Hnone)].
Defined.

(** C6 on the scenario: the network cannot be deleted while the machine
    references it; deleting a network that is not there fails with
    [NotFound]. *)
Lemma network_delete_guarded_scenario :
  (example_net ∈ network_list with_vm ∧
   example_vm ∈ machine_list with_vm ∧
   m_network_id example_vm = Some (net_id example_net) ∧
   network_delete 1 with_vm = (inl ReferencedByMachine, with_vm) ∧
   example_net ∈ network_list (network_delete 1 with_vm).2) ∧
  ((∀ n : Network, n ∈ network_list with_vm → net_id n ≠ 2) ∧
   network_delete 2 with_vm = (inl NotFound, with_vm)).
Proof.
  pose proof (network_delete_guarded with_vm) as [Hguard Hnf].
  assert (Hn : example_net ∈ network_list with_vm)
    by apply list_elem_of_here.
  assert (Hm : example_vm ∈ machine_list with_vm)
    by apply list_elem_of_here.
  assert (Href : m_network_id example_vm = Some (net_id example_net))
    by reflexivity.
  assert (Hnone : ∀ n : Network, n ∈ network_list with_vm → net_id n ≠ 2).
  { intros n H. apply list_elem_of_singleton in H. subst n. discriminate. }
  split.
  - destruct (Hguard example_net example_vm Hn Hm Href) as [H1 H2].
    repeat split; assumption.
  - split; [exact Hnone|exact (Hnf 2 Hnone)].
Defined.

(** C7 on the scenario: a second network of the same name is refused and
    the service stays as it is. *)
Lemma failed_create_changes_nothing_scenario :
  (create cidr blank
     (NewNetwork "example-net" "br1" "192.168.100.0/24" None None None)
     with_net).1 = inl DuplicateName ∧
  (create cidr blank
     (NewNetwork "example-net" "br1" "192.168.100.0/24" None None None)
     with_net).2 = with_net ∧
  network_list
    (create cidr blank
       (NewNetwork "example-net" "br1" "192.168.100.0/24" None None None)
       with_net).2 = [example_net].
Proof.
  assert (Hfail : (create cidr blank
                     (NewNetwork "example-net" "br1" "192.168.100.0/24"
                        None None None) with_net).1 = inl DuplicateName)
    by reflexivity.
  destruct (failed_create_changes_nothing cidr blank _ _ _ Hfail)
    as (Hsame & _ & _ & _ & _).
  split; [exact Hfail|]. split; [exact Hsame|].
  rewrite Hsame. reflexivity.
Defined.

End registry_facts.

(** * Further properties of the client *)
Module client_more_facts.
Import client.

Section WithEnvironment.

Variable default_headers : gmap string string.
Variable json_loads : string -> option Json.
Variable Remote : Type.
Variable serve : Remote -> Request -> Remote * option Response.

Abbreviation State := (State Remote).
Abbreviation invoke := (invoke json_loads serve).
Abbreviation issued := (issued json_loads serve).
Abbreviation run_all := (run_all json_loads serve).
Abbreviation fresh := (fresh default_headers).
Abbreviation __init__ := (__init__ default_headers).

(** The request a call builds from the client object. *)
Abbreviation request_of st c :=
  {| req_method := (endpoint c).1;
     req_url := base_url (self st) +:+ (endpoint c).2;
     req_headers := headers (session (self st));
     req_json := body c |}.

Lemma invoke_wire (c : call) (st : State) :
  wire (invoke c st).2 = wire st ++ [request_of st c].
Proof.
  destruct (client_facts.invoke_frame json_loads Remote serve c st)
    as (req & Hwire & _ & _).
  pose proof (client_facts.issued_whole_request json_loads Remote serve c st)
    as Hissued.
  unfold client.issued in Hissued. rewrite Hwire, drop_app_length in Hissued.
  rewrite Hwire, Hissued. reflexivity.
Qed.

Lemma invoke_self (c : call) (st : State) : self (invoke c st).2 = self st.
Proof.
  destruct (client_facts.invoke_frame json_loads Remote serve c st)
    as (req & _ & _ & Hself).
  exact Hself.
Qed.

(** X1: constructing a client from the [base_url] of a client gives that
    client again: the normalisation of the constructor is idempotent. *)
Theorem constructor_is_idempotent (b : string) :
  __init__ (base_url (__init__ b)) = __init__ b.
Proof.
  unfold client.__init__. cbn [base_url].
  rewrite rstrip_facts.rstrip_idempotent. reflexivity.
Qed.

(** X2: a [base_url] made of slashes only, the empty string included, is
    stripped to nothing: every request then goes to the bare path, without
    scheme or host. *)
Theorem slashes_only_base_url (n : nat) (c : call) (r : Remote)
    (log : list Request) :
  base_url (__init__ (Py.repeat_char "/" n)) = "" ∧
  req_url <$> issued c (fresh (Py.repeat_char "/" n) r log) = [(endpoint c).2].
Proof.
  assert (H : base_url (__init__ (Py.repeat_char "/" n)) = "").
  { cbn [client.__init__ base_url]. apply rstrip_facts.rstrip_repeat. }
  split; [exact H|].
  rewrite client_facts.issued_whole_request.
  cbn [fmap list_fmap req_url client.fresh self]. rewrite H. reflexivity.
Qed.

(** X3: a caller making the calls [cs] in a row makes exactly one call of
    the session per method call, in the order of the calls, whether calls
    return or raise: the methods do not retry, skip or repeat.  Each call
    of the session gets the verb, the URL string and the JSON body that
    its method call builds from the unchanged [base_url]. *)
Theorem calls_hand_over_one_request_each (cs : list call) (st : State) :
  (λ q, (req_method q, req_url q, req_json q)) <$> wire (run_all cs st)
  = ((λ q, (req_method q, req_url q, req_json q)) <$> wire st)
    ++ ((λ c, ((endpoint c).1, base_url (self st) +:+ (endpoint c).2, body c))
          <$> cs).
Proof.
  revert st. induction cs as [|c cs IH]; intros st.
  - cbn. rewrite app_nil_r. reflexivity.
  - cbn [client.run_all foldl]. fold (run_all cs (invoke c st).2).
    rewrite IH, invoke_wire, invoke_self, fmap_app, fmap_cons, <- app_assoc.
    reflexivity.
Qed.

(** X4: the verb and the URL string a call builds tell the calls apart.
    When two calls on one client hand the session the same verb and the
    same URL string, they are calls of the same method, and for the
    methods that put an argument in the string ([get_machine_by_name],
    [delete_machine], [delete_ssh_key]) the arguments are equal.  This is
    about the string as built; it is not escaped, and what the library
    makes of it is another matter. *)
Theorem built_urls_are_injective (c1 c2 : call) (st : State) :
  (λ q, (req_method q, req_url q)) <$> issued c1 st
  = (λ q, (req_method q, req_url q)) <$> issued c2 st →
  match c1, c2 with
  | GetMachines, GetMachines
  | GetNetworks, GetNetworks
  | GetSshKeys, GetSshKeys
  | CreateMachine _ _ _ _, CreateMachine _ _ _ _
  | CreateNetwork _ _ _ _ _ _, CreateNetwork _ _ _ _ _ _
  | AddSshKey _ _, AddSshKey _ _ => True
  | GetMachineByName name1, GetMachineByName name2 => name1 = name2
  | DeleteMachine id1, DeleteMachine id2 => id1 = id2
  | DeleteSshKey id1, DeleteSshKey id2 => id1 = id2
  | _, _ => False
  end.
Proof.
  rewrite !client_facts.issued_whole_request.
  cbn [fmap list_fmap req_method req_url].
  intros [= Hverb Hurl]. apply (inj (String.append _)) in Hurl.
  destruct c1, c2; cbn in Hverb, Hurl; try discriminate; try exact I.
  - apply (inj (String.append _)) in Hurl. exact Hurl.
  - apply (inj (String.append _)) in Hurl.
    apply (inj pretty) in Hurl. exact Hurl.
  - apply (inj (String.append _)) in Hurl.
    apply (inj pretty) in Hurl. exact Hurl.
Qed.

End WithEnvironment.

(** A name is put into the URL string as it is. *)
Example get_machine_by_name_unescaped :
  req_url <$> issued examples.loads (examples.always examples.ok_empty)
                (GetMachineByName "../../networks") examples.start
  = ["http://localhost:8080/api/v0/machines/name/../../networks"].
Proof. reflexivity. Qed.

(** X4 on two deletions that build the same URL string. *)
Lemma built_urls_are_injective_example :
  (λ q, (req_method q, req_url q))
    <$> issued examples.loads (examples.always examples.ok_empty)
          (DeleteMachine 42) examples.start
  = (λ q, (req_method q, req_url q))
    <$> issued examples.loads (examples.always examples.ok_empty)
          (DeleteMachine (40 + 2)) examples.start ∧
  42 = 40 + 2.
Proof.
  split; [reflexivity|].
  exact (built_urls_are_injective examples.loads unit
           (examples.always examples.ok_empty)
           (DeleteMachine 42) (DeleteMachine (40 + 2)) examples.start
           eq_refl).
Defined.

End client_more_facts.

(** * Properties of the script *)
Module script_facts.
Import client dyn script.

Section WithEnvironment.

Variable default_headers : gmap string string.
Variable json_loads : string -> option Json.
Variable Remote : Type.
Variable serve : Remote -> Request -> Remote * option Response.
Variable key_file : file_result.
Variable strip : string -> string.
Variable repr : Json -> string.
Variable message : exception -> string.
Variable json_error_is_request_exception : bool.

Abbreviation Env := (Env Remote).
Abbreviation S := (S Remote).
Abbreviation course := (course json_loads serve).
Abbreviation sends := (sends (Remote:=Remote)).

#[local] Existing Instance M_ret.
#[local] Existing Instance M_bind.
#[local] Existing Instance S_ret.
#[local] Existing Instance S_bind.

(** *** Running the script step by step *)

Lemma bind_ok {A B : Type} (m : S A) (f : A -> S B) (env env' : Env) (a : A) :
  m env = (Ok a, env') → (m ≫= f) env = f a env'.
Proof. intros H. unfold mbind, S_bind. rewrite H. reflexivity. Qed.

Lemma bind_err {A B : Type} (m : S A) (f : A -> S B) (env env' : Env)
    (e : exception) :
  m env = (Err e, env') → (m ≫= f) env = (Err e, env').
Proof. intros H. unfold mbind, S_bind. rewrite H. reflexivity. Qed.

Lemma course_state (v : verb) (path : string)
    (body : option (gmap string Json)) (st : State Remote) :
  let req := {| req_method := v; req_url := base_url (self st) +:+ path;
                req_headers := headers (session (self st));
                req_json := body |} in
  (course v path body st).2
  = {| self := self st; remote := (serve (remote st) req).1;
       wire := wire st ++ [req] |}.
Proof.
  unfold course, session_request, raise_for_status, response_json, get_self,
    raise, mbind, mret, M_bind, M_ret.
  cbn [self remote wire fst snd].
  destruct (serve (remote st) _) as [remote' [response|]]; [|reflexivity].
  destruct (is_error_status (status_code response)); [reflexivity|].
  destruct (json_loads (text response)); reflexivity.
Qed.

Lemma call_run {A : Type} (m : M Remote A) (env : Env) :
  call m env
  = (match (m (client_state env)).1 with
     | Return a => Ok a
     | Raise e => Err (RequestError e)
     end,
     {| client_state := (m (client_state env)).2; stdout := stdout env |}).
Proof. unfold call. destruct (m (client_state env)) as [[a|e] st]; reflexivity. Qed.

Lemma create_network_course name bridge subnet gateway dns_servers description :
  create_network json_loads serve name bridge subnet gateway dns_servers
    description
  = course POST "/api/v0/networks"
      (Some (create_network_data name bridge subnet gateway dns_servers
               description)).
Proof. reflexivity. Qed.

Lemma create_machine_dyn_course name hostname ipv4 network_id :
  create_machine_dyn json_loads serve name hostname ipv4 network_id
  = course POST "/api/v0/machines"
      (Some (create_machine_data_dyn name hostname ipv4 network_id)).
Proof. reflexivity. Qed.

Lemma add_ssh_key_dyn_course machine_id key_text :
  add_ssh_key_dyn json_loads serve machine_id key_text
  = course POST "/api/v0/ssh-keys"
      (Some (add_ssh_key_data_dyn machine_id key_text)).
Proof. reflexivity. Qed.

Lemma get_machines_course :
  get_machines json_loads serve = course GET "/api/v0/machines" None.
Proof. reflexivity. Qed.

Lemma get_networks_course :
  get_networks json_loads serve = course GET "/api/v0/networks" None.
Proof. reflexivity. Qed.

Lemma get_ssh_keys_course :
  get_ssh_keys json_loads serve = course GET "/api/v0/ssh-keys" None.
Proof. reflexivity. Qed.

(** *** What each statement sends *)

Section Sends.

Variable c : NookClient.

Lemma sends_weaken {A : Type} (lo lo' hi : list (verb * string)) (m : S A) :
  lo' `prefix_of` lo → sends c lo hi m → sends c lo' hi m.
Proof.
  intros Hlo Hm env Hc.
  destruct (Hm env Hc) as (new & Hw & Hs & Hl & Hh & Hok).
  exists new. repeat split; try assumption. etrans; eassumption.
Qed.

Lemma sends_print (line : string) : sends c [] [] (print line).
Proof.
  intros env Hc. exists []. cbn. rewrite app_nil_r.
  repeat split; try assumption; reflexivity.
Qed.

Lemma sends_pure {A : Type} (r : result A) : sends c [] [] (pure r).
Proof.
  intros env Hc. exists []. cbn. rewrite app_nil_r.
  repeat split; try assumption; reflexivity.
Qed.

Lemma sends_read_key_file : sends c [] [] (read_key_file key_file strip).
Proof. apply sends_pure. Qed.

Lemma sends_call (v : verb) (path : string)
    (body : option (gmap string Json)) :
  sends c [(v, base_url c +:+ path)] [(v, base_url c +:+ path)]
    (call (course v path body)).
Proof.
  intros env Hc. rewrite call_run. cbn [fst snd client_state].
  rewrite course_state. cbn [self wire]. rewrite Hc.
  eexists. split; [reflexivity|]. repeat split; reflexivity.
Qed.

Lemma sends_bind {A B : Type} (lo1 hi1 lo2 hi2 : list (verb * string))
    (m : S A) (f : A -> S B) :
  sends c lo1 hi1 m → (∀ a, sends c lo2 hi2 (f a)) →
  sends c lo1 (hi1 ++ hi2) (m ≫= f).
Proof.
  intros Hm Hf env Hc.
  destruct (Hm env Hc) as (new1 & Hw1 & Hs1 & Hlo1 & Hhi1 & Hok1).
  unfold mbind, S_bind.
  destruct (m env) as [[a|e] env1]; cbn [fst snd] in *.
  - destruct (Hf a env1 Hs1) as (new2 & Hw2 & Hs2 & Hlo2 & Hhi2 & Hok2).
    exists (new1 ++ new2). rewrite fmap_app, (Hok1 a eq_refl).
    split; [rewrite Hw2, Hw1, app_assoc; reflexivity|].
    split; [exact Hs2|].
    split; [apply prefix_app_r; rewrite <- (Hok1 a eq_refl); exact Hlo1|].
    split; [apply prefix_app; exact Hhi2|].
    intros b Hb. rewrite (Hok2 b Hb). reflexivity.
  - exists new1.
    split; [exact Hw1|]. split; [exact Hs1|]. split; [exact Hlo1|].
    split; [apply prefix_app_r; exact Hhi1|]. discriminate.
Qed.

Lemma sends_after_print {B : Type} (lo hi : list (verb * string))
    (line : string) (k : S B) :
  sends c lo hi k → sends c lo hi (print line;; k).
Proof.
  intros Hk env Hc. unfold mbind, S_bind, print.
  apply (Hk {| client_state := client_state env;
               stdout := stdout env ++ [line] |} Hc).
Qed.

Lemma sends_after_quiet {A B : Type} (hi : list (verb * string))
    (m : S A) (k : A -> S B) :
  sends c [] [] m → (∀ a, sends c [] hi (k a)) → sends c [] hi (m ≫= k).
Proof.
  intros Hm Hk. change hi with ([] ++ hi). eapply sends_bind; eassumption.
Qed.

Lemma sends_after_call {B : Type} (lo hi : list (verb * string))
    (v : verb) (path : string) (body : option (gmap string Json))
    (k : Json -> S B) :
  lo `prefix_of` [(v, base_url c +:+ path)] →
  (∀ a, sends c [] hi (k a)) →
  sends c lo ((v, base_url c +:+ path) :: hi) (call (course v path body) ≫= k).
Proof.
  intros Hlo Hk. apply (sends_weaken _ _ _ _ Hlo).
  change ((v, base_url c +:+ path) :: hi)
    with ([(v, base_url c +:+ path)] ++ hi).
  eapply sends_bind; [apply sends_call|exact Hk].
Qed.

Lemma sends_each (items : list Json) (body : Json -> S unit) :
  (∀ x, sends c [] [] (body x)) → sends c [] [] (each items body).
Proof.
  intros Hbody. induction items as [|x items IH]; cbn [each].
  - intros env Hc. exists []. cbn. rewrite app_nil_r.
    repeat split; try assumption; reflexivity.
  - apply sends_after_quiet; [apply Hbody|]. intros _. exact IH.
Qed.

Lemma sends_for_in (v : Json) (body : Json -> S unit) :
  (∀ x, sends c [] [] (body x)) → sends c [] [] (for_in v body).
Proof.
  intros Hbody. unfold for_in.
  apply sends_after_quiet; [apply sends_pure|].
  intros items. apply sends_each. exact Hbody.
Qed.

Lemma sends_print_machine (m : Json) : sends c [] [] (print_machine repr m).
Proof.
  unfold print_machine.
  apply sends_after_quiet; [apply sends_pure|]. intros name.
  apply sends_after_quiet; [apply sends_pure|]. intros ipv4.
  apply sends_print.
Qed.

Lemma sends_print_network (n : Json) : sends c [] [] (print_network repr n).
Proof.
  unfold print_network.
  apply sends_after_quiet; [apply sends_pure|]. intros name.
  apply sends_after_quiet; [apply sends_pure|]. intros subnet.
  apply sends_print.
Qed.

Lemma sends_print_key (k : Json) : sends c [] [] (print_key repr k).
Proof.
  unfold print_key.
  apply sends_after_quiet; [apply sends_pure|]. intros id.
  apply sends_after_quiet; [apply sends_pure|]. intros machine_id.
  apply sends_print.
Qed.

Lemma sends_handlers (e : exception) :
  sends c [] []
    (handlers message json_error_is_request_exception e).
Proof.
  unfold handlers.
  destruct (is_request_exception _ e); [apply sends_print|].
  destruct e; apply sends_print.
Qed.

End Sends.

(** *** The script as a whole *)

Abbreviation client0 := (__init__ default_headers "http://localhost:8080").
Abbreviation body0 := (example_body json_loads serve key_file strip repr).
Abbreviation handlers0 := (handlers message json_error_is_request_exception).
Abbreviation run0 :=
  (run default_headers json_loads serve key_file strip repr message
     json_error_is_request_exception).

Ltac quiet :=
  apply sends_after_quiet;
  [ first [ apply sends_pure
          | apply sends_read_key_file
          | apply sends_for_in; intros ?;
            first [ apply sends_print_machine
                  | apply sends_print_network
                  | apply sends_print_key ] ]
  | intros ? ].

Ltac after_call v path :=
  apply (sends_after_call client0 _ _ v path);
  [ first [ reflexivity | apply prefix_nil ] | intros ? ].

Lemma sends_example_body :
  sends client0 [(POST, "http://localhost:8080/api/v0/networks")] plan body0.
Proof.
  unfold example_body, plan.
  apply sends_after_print.
  rewrite create_network_course. after_call POST "/api/v0/networks".
  quiet. quiet. apply sends_after_print. apply sends_after_print. quiet.
  rewrite create_machine_dyn_course. after_call POST "/api/v0/machines".
  quiet. quiet. apply sends_after_print. apply sends_after_print.
  quiet. quiet.
  rewrite add_ssh_key_dyn_course. after_call POST "/api/v0/ssh-keys".
  quiet. apply sends_after_print. apply sends_after_print.
  rewrite get_machines_course. after_call GET "/api/v0/machines".
  quiet. apply sends_after_print.
  rewrite get_networks_course. after_call GET "/api/v0/networks".
  quiet. apply sends_after_print.
  rewrite get_ssh_keys_course. after_call GET "/api/v0/ssh-keys".
  apply sends_for_in. intros k. apply sends_print_key.
Qed.

(** What an [except] clause does: it prints one line and raises nothing. *)
Lemma handlers_run (e : exception) (env : Env) :
  ∃ line : string,
    handlers0 e env
    = (Ok tt, {| client_state := client_state env;
                 stdout := stdout env ++ [line] |}) ∧
    (line = "API request failed: " +:+ message e ∨
     line = "SSH key file not found. Update the path in the example." ∨
     line = "Unexpected error: " +:+ message e).
Proof.
  unfold handlers.
  destruct (is_request_exception _ e); [eexists; split; [reflexivity|auto]|].
  destruct e; eexists; (split; [reflexivity|auto]).
Qed.

(** X5: however the remote end answers and whatever the key file is,
    [example_usage] raises nothing; the first request it issues is the
    POST of the network, and the requests it issues are a beginning of its
    six-request plan (networks, machines and ssh-keys POSTed, then GOT), in
    that order.  Either all six are issued, or an [except] clause has
    printed the last line. *)
Theorem script_follows_plan (r : Remote) :
  (run0 r).1 = Ok tt ∧
  [(POST, "http://localhost:8080/api/v0/networks")]
    `prefix_of` (target <$> wire (client_state (run0 r).2)) ∧
  (target <$> wire (client_state (run0 r).2)) `prefix_of` plan ∧
  (target <$> wire (client_state (run0 r).2) = plan ∨
   ∃ (e : exception) (line : string),
     last (stdout (run0 r).2) = Some line ∧
     (line = "API request failed: " +:+ message e ∨
      line = "SSH key file not found. Update the path in the example." ∨
      line = "Unexpected error: " +:+ message e)).
Proof.
  unfold run, example_usage, try_except.
  destruct (sends_example_body (at_start default_headers r) eq_refl)
    as (new & Hw & Hs & Hlo & Hhi & Hok).
  cbn [at_start client_state fresh wire app] in Hw.
  destruct (body0 (at_start default_headers r)) as [[[]|e] env1];
    cbn [fst snd] in *.
  - rewrite Hw. repeat split; try assumption. left. apply (Hok tt eq_refl).
  - destruct (handlers_run e env1) as (line & -> & Hline).
    cbn [fst snd client_state stdout]. rewrite Hw.
    repeat split; try assumption. right. exists e, line.
    split; [apply last_snoc|exact Hline].
Qed.

(** *** Single runs *)

Abbreviation state0 r := (fresh default_headers "http://localhost:8080" r []).
Abbreviation create_network0 :=
  (create_network json_loads serve "example-net" "br0" "192.168.100.0/24"
     (Some "192.168.100.1") None (Some "Example network for testing")).

(** A call of a method, as a step of the script. *)
Lemma call_step {A : Type} (m : M Remote A) (env : Env) :
  (∃ a, (m (client_state env)).1 = Return a ∧
        call m env = (Ok a, {| client_state := (m (client_state env)).2;
                               stdout := stdout env |})) ∨
  (∃ e, (m (client_state env)).1 = Raise e ∧
        call m env = (Err (RequestError e),
                      {| client_state := (m (client_state env)).2;
                         stdout := stdout env |})).
Proof.
  rewrite call_run. destruct ((m (client_state env)).1) as [a|e]; eauto.
Qed.

(** The line the [except] clauses print for what a client method raised. *)
Lemma handlers_request_error (e : exn) (env : Env) :
  handlers0 (RequestError e) env
  = (Ok tt,
     {| client_state := client_state env;
        stdout := stdout env ++
          [(if is_request_exception json_error_is_request_exception
                (RequestError e)
            then "API request failed: " else "Unexpected error: ")
           +:+ message (RequestError e)] |}).
Proof.
  unfold handlers.
  destruct (is_request_exception _ (RequestError e)); reflexivity.
Qed.

(** X6: when the first call, [create_network], raises, the script stops
    there: the POST of the network is the only request it has issued, and
    it has printed its first line and the line of the [except] clause,
    which is that of [RequestException] unless the exception is the
    decoder's and the installed library does not count it as one. *)
Theorem network_failure_stops_script (r : Remote) (e : exn) :
  (create_network0 (state0 r)).1 = Raise e →
  target <$> wire (client_state (run0 r).2)
    = [(POST, "http://localhost:8080/api/v0/networks")] ∧
  stdout (run0 r).2
    = ["Creating network...";
       (if is_request_exception json_error_is_request_exception
            (RequestError e)
        then "API request failed: " else "Unexpected error: ")
       +:+ message (RequestError e)] ∧
  (run0 r).1 = Ok tt.
Proof.
  intros Hraise.
  unfold run, example_usage, try_except, example_body.
  erewrite bind_ok by reflexivity.
  destruct (call_step create_network0
              {| client_state := state0 r;
                 stdout := [] ++ ["Creating network..."] |})
    as [(a & Ha & _)|(e' & He & Hcall)].
  - cbn [client_state] in Ha. rewrite Hraise in Ha. discriminate.
  - cbn [client_state] in He. rewrite Hraise in He. injection He as <-.
    cbn [at_start client_state stdout] in *.
    erewrite bind_err by exact Hcall.
    rewrite handlers_request_error. cbn [fst snd client_state stdout].
    rewrite create_network_course, course_state.
    repeat split.
Qed.

Lemma bind_extends {A B : Type} (c : NookClient) (hi : list (verb * string))
    (m : S A) (k : A -> S B) (env : Env) :
  (∀ a, sends c [] hi (k a)) →
  self (client_state (m env).2) = c →
  wire (client_state (m env).2)
    `prefix_of` wire (client_state ((m ≫= k) env).2).
Proof.
  intros Hk Hs. unfold mbind, S_bind.
  destruct (m env) as [[a|e] env1]; cbn [fst snd] in *; [|reflexivity].
  destruct (Hk a env1 Hs) as (new & Hw & _). rewrite Hw.
  apply prefix_app_r. reflexivity.
Qed.

Lemma try_except_wire (body : S unit) (env : Env) :
  wire (client_state (try_except body handlers0 env).2)
  = wire (client_state (body env).2).
Proof.
  unfold try_except. destruct (body env) as [[[]|e] env1]; [reflexivity|].
  destruct (handlers_run e env1) as (line & -> & _). reflexivity.
Qed.

Lemma create_machine_data_dyn_lookup name hostname ipv4 network_id :
  let data := create_machine_data_dyn name hostname ipv4 network_id in
  data !! "name" = Some (JStr name) ∧
  data !! "hostname" = Some (JStr hostname) ∧
  data !! "ipv4" = sent_str ipv4 ∧
  data !! "network_id" = (if truthy network_id then Some network_id else None).
Proof.
  unfold create_machine_data_dyn. cbv zeta.
  rewrite client_facts.sent_str_spec.
  repeat split.
  - rewrite !client_facts.lookup_cond_insert_ne by discriminate. reflexivity.
  - rewrite !client_facts.lookup_cond_insert_ne by discriminate. reflexivity.
  - rewrite client_facts.lookup_cond_insert_ne by discriminate.
    rewrite client_facts.lookup_cond_insert_eq. reflexivity.
  - rewrite client_facts.lookup_cond_insert_eq,
      client_facts.lookup_cond_insert_ne by discriminate.
    reflexivity.
Qed.

(** One statement of the script, with a case for each way it can end. *)
Ltac step :=
  lazymatch goal with
  | |- context [@mbind _ _ _ _ ?K (print ?l) ?env] =>
      erewrite (bind_ok (print l) K env) by reflexivity
  | |- context [@mbind _ _ _ _ ?K (pure (Ok ?a)) ?env] =>
      erewrite (bind_ok (pure (Ok a)) K env) by reflexivity
  | |- context [@mbind _ _ _ _ ?K (pure ?res) ?env] =>
      let x := fresh "x" in
      let e := fresh "e" in
      let E := fresh "E" in
      destruct res as [x|e] eqn:E;
      [ erewrite bind_ok by reflexivity
      | erewrite bind_err by reflexivity ]
  | |- context [@mbind _ _ _ _ ?K (call ?m) ?env] =>
      let a := fresh "a" in
      let e := fresh "e" in
      let Hc := fresh "Hcall" in
      destruct (call_step m env) as [(a & _ & Hc)|(e & _ & Hc)];
      [ erewrite (bind_ok (call m) K env) by exact Hc
      | erewrite (bind_err (call m) K env) by exact Hc ];
      clear Hc
  | |- context [@mbind _ _ _ _ ?K (read_key_file FileMissing ?s) ?env] =>
      erewrite (bind_err (read_key_file FileMissing s) K env) by reflexivity
  | |- context [@mbind _ _ _ _ ?K (read_key_file (FileText ?c) ?s) ?env] =>
      erewrite (bind_ok (read_key_file (FileText c) s) K env) by reflexivity
  end;
  cbn [fst snd client_state stdout].

(** A script that has failed: the [except] clause prints its line. *)
Ltac handle :=
  lazymatch goal with
  | |- context [handlers0 ?e ?env] =>
      let line := fresh "line" in
      let Hrun := fresh "Hrun" in
      let Hline := fresh "Hline" in
      destruct (handlers_run e env) as [line [Hrun Hline]];
      rewrite Hrun; clear Hrun
  end;
  cbn [fst snd client_state stdout].

(** A failed script cannot have printed a line that differs from all the
    lines printed on the way. *)
Ltac never_printed :=
  handle;
  let Hin := fresh "Hin" in
  intros Hin; exfalso;
  repeat (apply elem_of_app in Hin as [Hin|Hin]);
  try (apply elem_of_nil in Hin; contradiction);
  apply list_elem_of_singleton in Hin;
  try discriminate;
  match goal with
  | H : _ ∨ _ |- _ => destruct H as [-> | [-> | ->]]; discriminate
  end.

Abbreviation run_without_key_file :=
  (run default_headers json_loads serve FileMissing strip repr message
     json_error_is_request_exception).

(** X8: with the key file missing, a script that gets as far as announcing
    the key step ends there: it has issued exactly the POST of the network
    and the POST of the machine, which stay created, it never POSTs a key,
    and the last line it prints is the one of the [FileNotFoundError]
    clause. *)
Theorem missing_key_file_stops_after_machine (r : Remote) :
  "Adding SSH key..." ∈ stdout (run_without_key_file r).2 →
  target <$> wire (client_state (run_without_key_file r).2)
    = [(POST, "http://localhost:8080/api/v0/networks");
       (POST, "http://localhost:8080/api/v0/machines")] ∧
  last (stdout (run_without_key_file r).2)
    = Some "SSH key file not found. Update the path in the example.".
Proof.
  unfold run, example_usage, try_except, example_body, at_start.
  step.
  step; try solve [never_printed].
  step; try solve [never_printed].
  step; try solve [never_printed].
  step. step. step.
  step; try solve [never_printed].
  step; try solve [never_printed].
  step; try solve [never_printed].
  step. step. step.
  unfold handlers, is_request_exception, print.
  cbn [fst snd client_state stdout].
  intros _. split; [|apply last_snoc].
  rewrite create_machine_dyn_course, course_state. cbn [self wire].
  rewrite create_network_course, course_state. reflexivity.
Qed.

(** The state of the client after the calls made so far. *)
Ltac wire_known :=
  repeat (rewrite ?create_network_course, ?create_machine_dyn_course,
            ?add_ssh_key_dyn_course, ?get_machines_course,
            ?get_networks_course, ?get_ssh_keys_course, ?course_state);
  cbn [self wire remote app].

(** What the rest of the script sends, whatever it is. *)
Ltac send_rest :=
  repeat first
    [ apply sends_after_print
    | apply sends_for_in; intros ?; apply sends_print_key
    | quiet
    | rewrite add_ssh_key_dyn_course;
      eapply (sends_after_call client0 _ _ POST "/api/v0/ssh-keys");
      [apply prefix_nil|intros ?]
    | rewrite get_machines_course;
      eapply (sends_after_call client0 _ _ GET "/api/v0/machines");
      [apply prefix_nil|intros ?]
    | rewrite get_networks_course;
      eapply (sends_after_call client0 _ _ GET "/api/v0/networks");
      [apply prefix_nil|intros ?]
    | rewrite get_ssh_keys_course;
      eapply (sends_after_call client0 _ _ GET "/api/v0/ssh-keys");
      [apply prefix_nil|intros ?] ].

Abbreviation run_with_key_file content :=
  (run default_headers json_loads serve (FileText content) strip repr
     message json_error_is_request_exception).

(** X9: whenever the script gets to issue a third request, that request is
    the POST of the key, and its body binds [key_text] to the text of the
    key file with [strip()] applied, and [machine_id] to some value, and
    has no other key. *)
Theorem key_request_carries_stripped_file_text
    (r : Remote) (content : string) (q : Request) :
  wire (client_state (run_with_key_file content r).2) !! 2%nat = Some q →
  target q = (POST, "http://localhost:8080/api/v0/ssh-keys") ∧
  ∃ (data : gmap string Json) (machine_id : Json),
    req_json q = Some data ∧
    data !! "key_text" = Some (JStr (strip content)) ∧
    data !! "machine_id" = Some machine_id ∧
    dom data = {[ "machine_id"; "key_text" ]}.
Proof.
  unfold run, example_usage. rewrite try_except_wire.
  unfold example_body, at_start.
  assert (Hshort : ∀ (l : list Request) (P : Prop),
            (length l < 3)%nat → l !! 2%nat = Some q → P).
  { intros l P Hlen H. apply lookup_lt_Some in H. lia. }
  step.
  step; [|apply Hshort; wire_known; cbn; lia].
  step; [|apply Hshort; wire_known; cbn; lia].
  step; [|apply Hshort; wire_known; cbn; lia].
  step. step. step.
  step; [|apply Hshort; wire_known; cbn; lia].
  step; [|apply Hshort; wire_known; cbn; lia].
  step; [|apply Hshort; wire_known; cbn; lia].
  step. step. step. step.
  match goal with
  | |- context [@mbind _ _ _ _ ?K (call ?m) ?env] =>
      set (final := (call m ≫= K) env);
      assert (Hext : wire (client_state (call m env).2)
                       `prefix_of` wire (client_state final.2))
  end.
  { subst final. eapply (bind_extends client0).
    - intros ssh_key. send_rest.
    - rewrite call_run. cbn [fst snd client_state]. wire_known. reflexivity. }
  rewrite call_run in Hext. cbn [fst snd client_state] in Hext.
  rewrite add_ssh_key_dyn_course, course_state in Hext.
  cbn [self wire] in Hext.
  rewrite create_machine_dyn_course, course_state in Hext.
  cbn [self wire] in Hext.
  rewrite create_network_course, course_state in Hext.
  cbn [client.fresh self wire app] in Hext.
  intros Hq.
  pose proof (λ x H, prefix_lookup_Some _ _ 2%nat x H Hext) as Hq'.
  specialize (Hq' _ eq_refl).
  rewrite Hq in Hq'. injection Hq' as ->.
  split; [reflexivity|].
  eexists. eexists. split; [reflexivity|].
  unfold add_ssh_key_data_dyn.
  split; [rewrite lookup_insert_ne by discriminate;
          apply lookup_singleton_eq|].
  split; [apply lookup_insert_eq|].
  rewrite dom_insert_L, dom_singleton_L. reflexivity.
Qed.

(** X7: whenever the script issues a second request after
    [create_network] has returned a value whose [id] it can read, that
    request is the POST of the machine, and its body binds [network_id] to
    the [id] the server returned for the network, provided that value is
    true in Python; an [id] of [0], [null], [false] or an empty value
    leaves [network_id] out, so that the machine is created without a
    network. *)
Theorem second_request_has_returned_network_id
    (r : Remote) (network id : Json) (q : Request) :
  (create_network0 (state0 r)).1 = Return network →
  subscript network "id" = Ok id →
  wire (client_state (run0 r).2) !! 1%nat = Some q →
  target q = (POST, "http://localhost:8080/api/v0/machines") ∧
  ∃ data : gmap string Json,
    req_json q = Some data ∧
    data !! "network_id" = (if truthy id then Some id else None) ∧
    data !! "name" = Some (JStr "example-vm") ∧
    data !! "hostname" = Some (JStr "example-vm.local") ∧
    data !! "ipv4" = Some (JStr "192.168.100.10").
Proof.
  intros Hnet Hid.
  unfold run, example_usage. rewrite try_except_wire.
  unfold example_body, at_start.
  assert (Hshort : ∀ (l : list Request) (P : Prop),
            (length l < 2)%nat → l !! 1%nat = Some q → P).
  { intros l P Hlen H. apply lookup_lt_Some in H. lia. }
  step.
  lazymatch goal with
  | |- context [@mbind _ _ _ _ ?K (call ?m) ?env] =>
      destruct (call_step m env) as [(a & Ha & Hcall)|(e & He & _)];
      cbn [client_state] in *;
      [ rewrite Hnet in Ha; injection Ha as <-;
        erewrite (bind_ok (call m) K env) by exact Hcall; clear Hcall
      | rewrite Hnet in He; discriminate ]
  end.
  cbn [fst snd client_state stdout]. rewrite Hid.
  step; [|apply Hshort; wire_known; cbn; lia].
  step. step. step. step.
  match goal with
  | |- context [@mbind _ _ _ _ ?K (call ?m) ?env] =>
      set (final := (call m ≫= K) env);
      assert (Hext : wire (client_state (call m env).2)
                       `prefix_of` wire (client_state final.2))
  end.
  { subst final. eapply (bind_extends client0).
    - intros machine. send_rest.
    - rewrite call_run. cbn [fst snd client_state]. wire_known. reflexivity. }
  rewrite call_run in Hext. cbn [fst snd client_state] in Hext.
  rewrite create_machine_dyn_course, course_state in Hext.
  cbn [self wire] in Hext.
  rewrite create_network_course, course_state in Hext.
  cbn [client.fresh self wire app] in Hext.
  intros Hq.
  pose proof (λ x H, prefix_lookup_Some _ _ 1%nat x H Hext) as Hq'.
  specialize (Hq' _ eq_refl).
  rewrite Hq in Hq'. injection Hq' as ->.
  split; [reflexivity|].
  eexists. split; [reflexivity|].
  destruct (create_machine_data_dyn_lookup "example-vm" "example-vm.local"
              (Some "192.168.100.10") id) as (H1 & H2 & H3 & H4).
  auto.
Qed.

(** *** The listing loops *)

Lemma for_in_list (l : list Json) (body : Json -> S unit) (env : Env) :
  for_in (JList l) body env = each l body env.
Proof. reflexivity. Qed.

Lemma each_cons (x : Json) (l : list Json) (body : Json -> S unit) (env : Env) :
  each (x :: l) body env
  = match body x env with
    | (Ok _, env') => each l body env'
    | (Err e, env') => (Err e, env')
    end.
Proof. reflexivity. Qed.

Lemma print_machine_ok (m name ipv4 : Json) (env : Env) :
  subscript m "name" = Ok name → subscript m "ipv4" = Ok ipv4 →
  print_machine repr m env
  = (Ok tt,
     {| client_state := client_state env;
        stdout := stdout env ++
          ["  - " +:+ str repr name +:+ " (" +:+ str repr ipv4 +:+ ")"] |}).
Proof.
  intros Hn Hi. unfold print_machine.
  erewrite bind_ok by (unfold pure; rewrite Hn; reflexivity).
  erewrite bind_ok by (unfold pure; rewrite Hi; reflexivity).
  reflexivity.
Qed.

Lemma print_machine_err (m : Json) (e : exception) (env : Env) :
  subscript m "name" = Err e ∨
  (∃ name, subscript m "name" = Ok name ∧ subscript m "ipv4" = Err e) →
  print_machine repr m env = (Err e, env).
Proof.
  intros [Hn|(name & Hn & Hi)]; unfold print_machine.
  - erewrite bind_err by (unfold pure; rewrite Hn; reflexivity). reflexivity.
  - erewrite bind_ok by (unfold pure; rewrite Hn; reflexivity).
    erewrite bind_err by (unfold pure; rewrite Hi; reflexivity). reflexivity.
Qed.

(** X10: how the loop over the machines ends tells what it printed.  If
    it raises nothing, every element had a [name] and an [ipv4] and the
    output has grown by exactly one line per element, in order.  If it
    raises [KeyError] or [TypeError], the exception is that of the first
    element that lacks one of the two keys (or is no [dict]), and exactly
    the lines of the elements before it have been printed.  In both cases
    nothing but the output has changed. *)
Theorem listing_outcome_tells_output (l : list Json) (env env' : Env) :
  (for_in (JList l) (print_machine repr) env = (Ok tt, env') →
   ∃ lines : list string,
     Forall2 (λ m line, ∃ name ipv4,
                subscript m "name" = Ok name ∧
                subscript m "ipv4" = Ok ipv4 ∧
                line = "  - " +:+ str repr name +:+ " (" +:+ str repr ipv4
                       +:+ ")") l lines ∧
     env' = {| client_state := client_state env;
               stdout := stdout env ++ lines |}) ∧
  (∀ e : exception,
     for_in (JList l) (print_machine repr) env = (Err e, env') →
     e = TypeError ∨ (∃ key, e = KeyError key) →
     ∃ (good : list Json) (bad : Json) (rest : list Json)
       (lines : list string),
       l = good ++ bad :: rest ∧
       Forall2 (λ m line, ∃ name ipv4,
                  subscript m "name" = Ok name ∧
                  subscript m "ipv4" = Ok ipv4 ∧
                  line = "  - " +:+ str repr name +:+ " (" +:+ str repr ipv4
                         +:+ ")") good lines ∧
       (subscript bad "name" = Err e ∨
        ∃ name, subscript bad "name" = Ok name ∧
                subscript bad "ipv4" = Err e) ∧
       env' = {| client_state := client_state env;
                 stdout := stdout env ++ lines |}).
Proof.
  rewrite for_in_list.
  revert env. induction l as [|m l IH]; intros env.
  - cbn [each]. destruct env as [st out]. split.
    + intros [= <-]. exists []. split; [constructor|].
      cbn. rewrite app_nil_r. reflexivity.
    + intros e H. discriminate H.
  - rewrite each_cons.
    destruct (subscript m "name") as [name|e0] eqn:Hn.
    + destruct (subscript m "ipv4") as [ipv4|e0] eqn:Hi.
      * rewrite (print_machine_ok m name ipv4 env Hn Hi).
        destruct (IH {| client_state := client_state env;
                        stdout := stdout env ++
                          ["  - " +:+ str repr name +:+ " (" +:+
                           str repr ipv4 +:+ ")"] |}) as [IHok IHerr].
        cbn [client_state stdout] in IHok, IHerr. split.
        -- intros H. destruct (IHok H) as (lines & Hl & ->).
           eexists. split; [constructor; [eauto|exact Hl]|].
           rewrite <- app_assoc. reflexivity.
        -- intros e H He.
           destruct (IHerr e H He) as (good & bad & rest & lines & -> & Hl
                                       & Hbad & ->).
           exists (m :: good), bad, rest.
           eexists. split; [reflexivity|].
           split; [constructor; [eauto|exact Hl]|].
           split; [exact Hbad|]. rewrite <- app_assoc. reflexivity.
      * rewrite (print_machine_err m e0 env) by eauto. split.
        -- intros H. discriminate H.
        -- intros e [= <- <-] _. exists [], m, l, [].
           split; [reflexivity|]. split; [constructor|].
           split; [eauto|]. destruct env as [st out]. cbn.
           rewrite app_nil_r. reflexivity.
    + rewrite (print_machine_err m e0 env) by eauto. split.
      * intros H. discriminate H.
      * intros e [= <- <-] _. exists [], m, l, [].
        split; [reflexivity|]. split; [constructor|].
        split; [eauto|]. destruct env as [st out]. cbn.
        rewrite app_nil_r. reflexivity.
Qed.

Lemma print_machine_str (s : string) (env : Env) :
  print_machine repr (JStr s) env = (Err TypeError, env).
Proof. reflexivity. Qed.

(** X11: when the listing is not a [list], the loop prints nothing.  It
    ends quietly on the empty [dict] and on the empty string, and raises
    [TypeError] on every other value: on a number, [None] or a boolean
    because they cannot be iterated, on a [dict] or string with content
    because its first key or character is a string, which has no
    ["name"]. *)
Theorem listing_of_non_list (v : Json) (env : Env) :
  (∀ l, v ≠ JList l) →
  (v = JStr "" ∨ v = JDict ∅ →
   for_in v (print_machine repr) env = (Ok tt, env)) ∧
  (v ≠ JStr "" → v ≠ JDict ∅ →
   for_in v (print_machine repr) env = (Err TypeError, env)).
Proof.
  intros Hlist. split.
  - intros [-> | ->]; [reflexivity|].
    unfold for_in. erewrite bind_ok by reflexivity.
    rewrite map_to_list_empty. reflexivity.
  - intros Hstr Hdict. destruct v as [|b|z|s|l|d].
    + reflexivity.
    + reflexivity.
    + reflexivity.
    + destruct s as [|a s]; [contradiction|].
      unfold for_in. erewrite bind_ok by reflexivity.
      cbn [characters]. rewrite each_cons, print_machine_str. reflexivity.
    + exfalso. exact (Hlist l eq_refl).
    + unfold for_in. erewrite bind_ok by reflexivity.
      destruct (map_to_list d) as [|[k x] items] eqn:E.
      * apply map_to_list_empty_iff in E. subst d. contradiction.
      * cbn [fmap list_fmap fst]. rewrite each_cons, print_machine_str.
        reflexivity.
Qed.

(** *** The methods on values of the annotated types *)

Lemma truthy_of_opt_int (o : option Z) : truthy (of_opt_int o) = Py.truthy_int o.
Proof. destruct o; reflexivity. Qed.

(** On an [int] or [None], the methods as the script calls them are the
    methods as annotated. *)
Lemma create_machine_dyn_typed name hostname ipv4 (network_id : option Z) :
  create_machine_dyn json_loads serve name hostname ipv4
    (of_opt_int network_id)
  = create_machine json_loads serve name hostname ipv4 network_id.
Proof.
  unfold create_machine_dyn, create_machine, create_machine_data_dyn,
    create_machine_data.
  rewrite truthy_of_opt_int. reflexivity.
Qed.

Lemma add_ssh_key_dyn_typed (machine_id : Z) (key_text : string) :
  add_ssh_key_dyn json_loads serve (JInt machine_id) key_text
  = add_ssh_key json_loads serve machine_id key_text.
Proof. reflexivity. Qed.

End WithEnvironment.

(** *** The theorems on concrete runs *)

Import script_examples.

(** Against a remote end that answers every request with one record, the
    script creates the network, the machine and the key, and fails on the
    first listing, which is a record and no list. *)
Example accepted_run :
  target <$> wire (client_state (accepted (FileText "ssh-rsa AAAA")).2)
  = take 4 plan ∧
  stdout (accepted (FileText "ssh-rsa AAAA")).2
  = [ "Creating network...";
      "Created network: example (ID: 7)";
      "Creating machine...";
      "Created machine: example (ID: 7)";
      "Adding SSH key...";
      "Added SSH key (ID: 7)";
      "Listing all machines:";
      "Unexpected error: <reason>" ].
Proof. split; reflexivity. Qed.

(** X6 on a remote end that refuses everything. *)
Lemma network_failure_stops_script_refused :
  (create_network script_examples.loads
     (examples.always examples.not_found)
     "example-net" "br0" "192.168.100.0/24" (Some "192.168.100.1") None
     (Some "Example network for testing")
     (fresh ∅ "http://localhost:8080" tt [])).1
  = Raise (HTTPError examples.not_found) ∧
  target <$> wire (client_state refused.2)
  = [(POST, "http://localhost:8080/api/v0/networks")] ∧
  stdout refused.2 = ["Creating network..."; "API request failed: <reason>"].
Proof.
  split; [reflexivity|].
  destruct (network_failure_stops_script ∅ script_examples.loads unit
              (examples.always examples.not_found) FileMissing
              script_examples.strip script_examples.repr
              script_examples.message true tt
              (HTTPError examples.not_found) eq_refl) as (Hwire & Hout & _).
  split; [exact Hwire|exact Hout].
Defined.

(** X7 on a remote end that accepts everything: the machine is created on
    network 7. *)
Lemma second_request_has_returned_network_id_accepted :
  (create_network script_examples.loads (examples.always created)
     "example-net" "br0" "192.168.100.0/24" (Some "192.168.100.1") None
     (Some "Example network for testing")
     (fresh ∅ "http://localhost:8080" tt [])).1
  = Return record ∧
  subscript record "id" = Ok (JInt 7) ∧
  wire (client_state (accepted FileMissing).2) !! 1%nat
  = Some machine_request ∧
  target machine_request = (POST, "http://localhost:8080/api/v0/machines") ∧
  ∃ data : gmap string Json,
    req_json machine_request = Some data ∧
    data !! "network_id" = Some (JInt 7).
Proof.
  assert (Hnet : (create_network script_examples.loads
                    (examples.always created)
                    "example-net" "br0" "192.168.100.0/24"
                    (Some "192.168.100.1") None
                    (Some "Example network for testing")
                    (fresh ∅ "http://localhost:8080" tt [])).1
                 = Return record) by reflexivity.
  assert (Hid : subscript record "id" = Ok (JInt 7)) by reflexivity.
  assert (Hq : wire (client_state (accepted FileMissing).2) !! 1%nat
               = Some machine_request) by reflexivity.
  split; [exact Hnet|]. split; [exact Hid|]. split; [exact Hq|].
  destruct (second_request_has_returned_network_id ∅ script_examples.loads
              unit (examples.always created) FileMissing
              script_examples.strip script_examples.repr
              script_examples.message true tt
              record (JInt 7) machine_request Hnet Hid Hq)
    as (Htarget & data & Hjson & Hdata & _).
  split; [exact Htarget|]. exists data. split; [exact Hjson|exact Hdata].
Defined.

(** X8 on a remote end that accepts everything. *)
Lemma missing_key_file_stops_after_machine_accepted :
  "Adding SSH key..." ∈ stdout (accepted FileMissing).2 ∧
  target <$> wire (client_state (accepted FileMissing).2)
  = [(POST, "http://localhost:8080/api/v0/networks");
     (POST, "http://localhost:8080/api/v0/machines")] ∧
  last (stdout (accepted FileMissing).2)
  = Some "SSH key file not found. Update the path in the example.".
Proof.
  assert (Hin : "Adding SSH key..." ∈ stdout (accepted FileMissing).2).
  { apply (bool_decide_unpack _). vm_compute. exact I. }
  split; [exact Hin|].
  exact (missing_key_file_stops_after_machine ∅ script_examples.loads unit
           (examples.always created) script_examples.strip
           script_examples.repr script_examples.message true tt Hin).
Defined.

(** X9 on a remote end that accepts everything. *)
Lemma key_request_carries_stripped_file_text_accepted :
  wire (client_state (accepted (FileText "ssh-rsa AAAA")).2) !! 2%nat
  = Some key_request ∧
  target key_request = (POST, "http://localhost:8080/api/v0/ssh-keys") ∧
  ∃ (data : gmap string Json) (machine_id : Json),
    req_json key_request = Some data ∧
    data !! "key_text" = Some (JStr (script_examples.strip "ssh-rsa AAAA")) ∧
    data !! "machine_id" = Some machine_id ∧
    dom data = {[ "machine_id"; "key_text" ]}.
Proof.
  assert (Hq : wire (client_state (accepted (FileText "ssh-rsa AAAA")).2)
               !! 2%nat = Some key_request) by reflexivity.
  split; [exact Hq|].
  exact (key_request_carries_stripped_file_text ∅ script_examples.loads unit
           (examples.always created) script_examples.strip
           script_examples.repr script_examples.message true tt
           "ssh-rsa AAAA" key_request Hq).
Defined.

(** X10 on a listing of one machine, and on one followed by a number. *)
Lemma listing_outcome_tells_output_example :
  (for_in (JList [listed_vm]) (print_machine script_examples.repr)
     quiet_start
   = (Ok tt, {| client_state := examples.start;
                stdout := ["  - example-vm (192.168.100.10)"] |}) ∧
   ∃ lines : list string,
     length lines = 1%nat ∧
     {| client_state := examples.start;
        stdout := ["  - example-vm (192.168.100.10)"] |}
     = {| client_state := client_state quiet_start;
          stdout := stdout quiet_start ++ lines |}) ∧
  (for_in (JList [listed_vm; JInt 3; listed_vm])
     (print_machine script_examples.repr) quiet_start
   = (Err TypeError,
      {| client_state := examples.start;
         stdout := ["  - example-vm (192.168.100.10)"] |}) ∧
   ∃ (good : list Json) (bad : Json) (rest : list Json),
     [listed_vm; JInt 3; listed_vm] = good ++ bad :: rest ∧
     length good = 1%nat ∧
     (subscript bad "name" = Err TypeError ∨
      ∃ name, subscript bad "name" = Ok name ∧
              subscript bad "ipv4" = Err TypeError)).
Proof.
  split.
  - assert (Hrun : for_in (JList [listed_vm])
                     (print_machine script_examples.repr) quiet_start
                   = (Ok tt, {| client_state := examples.start;
                                stdout := ["  - example-vm (192.168.100.10)"]
                             |})) by reflexivity.
    split; [exact Hrun|].
    destruct (proj1 (listing_outcome_tells_output unit script_examples.repr
                       [listed_vm] quiet_start _) Hrun)
      as (lines & Hlines & Henv).
    exists lines. split; [|exact Henv].
    apply Forall2_length in Hlines. symmetry. exact Hlines.
  - assert (Hrun : for_in (JList [listed_vm; JInt 3; listed_vm])
                     (print_machine script_examples.repr) quiet_start
                   = (Err TypeError,
                      {| client_state := examples.start;
                         stdout := ["  - example-vm (192.168.100.10)"] |}))
      by reflexivity.
    split; [exact Hrun|].
    destruct (proj2 (listing_outcome_tells_output unit script_examples.repr
                       [listed_vm; JInt 3; listed_vm] quiet_start _)
                TypeError Hrun (or_introl eq_refl))
      as (good & bad & rest & lines & Hl & Hgood & Hbad & Henv).
    exists good, bad, rest. split; [exact Hl|]. split; [|exact Hbad].
    apply Forall2_length in Hgood. rewrite Hgood.
    injection Henv as Henv. apply (f_equal length) in Henv.
    rewrite ?length_app in Henv. cbn in Henv. lia.
Defined.

(** X11 on the empty [dict] and on [None]. *)
Lemma listing_of_non_list_example :
  for_in (JDict ∅) (print_machine script_examples.repr) quiet_start
  = (Ok tt, quiet_start) ∧
  for_in JNull (print_machine script_examples.repr) quiet_start
  = (Err TypeError, quiet_start).
Proof.
  split.
  - refine (proj1 (listing_of_non_list unit script_examples.repr (JDict ∅)
                     quiet_start _) _).
    + intros l. discriminate.
    + right. reflexivity.
  - refine (proj2 (listing_of_non_list unit script_examples.repr JNull
                     quiet_start _) _ _).
    + intros l. discriminate.
    + discriminate.
    + discriminate.
Defined.

End script_facts.
